(** * xbutil2 [report] sub-command (OO_Reports.cpp)

    A shallow embedding of [print_clock_info], [print_preemption_telemetry]
    and [OO_Reports::execute], with the Boost facilities they call
    (property trees, [write_json], [format], [iequals], [to_lower_copy])
    modelled alongside, and the properties of the report renderers and of
    the command dispatch proved over that embedding. *)

From Stdlib Require Import String Ascii List Bool Arith Lia.
Import ListNotations.
Open Scope list_scope.
Open Scope string_scope.

(** ** Characters and strings *)

(** The line feed written as [\n] in the C++ literals. *)
Definition nl : string := String "010"%char EmptyString.

(** The double quote character (code 34). *)
Definition dquote : ascii := "034"%char.

(** [std::string(n, ' ')]. *)
Fixpoint spaces (n : nat) : string :=
  match n with
  | O => EmptyString
  | S k => String " "%char (spaces k)
  end.

Definition map_string (f : ascii -> ascii) : string -> string :=
  fix go (s : string) : string :=
    match s with
    | EmptyString => EmptyString
    | String c rest => String (f c) (go rest)
    end.

(** [std::toupper] and [std::tolower] in the classic locale: only the 26
    ASCII letters change. *)
Definition toupper (c : ascii) : ascii :=
  let n := nat_of_ascii c in
  if ((97 <=? n) && (n <=? 122))%nat then ascii_of_nat (n - 32) else c.

Definition tolower (c : ascii) : ascii :=
  let n := nat_of_ascii c in
  if ((65 <=? n) && (n <=? 90))%nat then ascii_of_nat (n + 32) else c.

(** [boost::algorithm::to_lower_copy]. *)
Definition to_lower_copy (s : string) : string := map_string tolower s.

(** [boost::iequals]: both ranges are walked together, the elements are
    compared after [std::toupper], and the ranges must end together. *)
Fixpoint iequals (a b : string) : bool :=
  match a, b with
  | EmptyString, EmptyString => true
  | String x a', String y b' => Ascii.eqb (toupper x) (toupper y) && iequals a' b'
  | _, _ => false
  end.

(** [std::string::empty]. *)
Definition string_empty (s : string) : bool :=
  match s with
  | EmptyString => true
  | String _ _ => false
  end.

(** Does [s] begin with [p]? *)
Fixpoint starts_with (p s : string) : bool :=
  match p, s with
  | EmptyString, _ => true
  | String x p', String y s' => Ascii.eqb x y && starts_with p' s'
  | String _ _, EmptyString => false
  end.

(** Does [p] occur in [s]? *)
Fixpoint contains (p s : string) : bool :=
  starts_with p s ||
  match s with
  | EmptyString => false
  | String _ s' => contains p s'
  end.

(** ** boost::format, the two directives used by the clock table

    [%-23s] and [%3s]: the argument is padded with blanks up to the field
    width, on the right when the [-] flag is given and on the left
    otherwise; an argument longer than the width is written whole. *)
Definition format_s (left_flag : bool) (width : nat) (arg : string) : string :=
  let fill := spaces (width - String.length arg) in
  if left_flag then arg ++ fill else fill ++ arg.

(** [boost::format("  %-23s: %3s MHz\n") % id % freq_mhz]. *)
Definition format_clock_line (id freq_mhz : string) : string :=
  "  " ++ format_s true 23 id ++ ": " ++ format_s false 3 freq_mhz ++ " MHz" ++ nl.

(** ** Exceptions

    The exception classes that cross this file.  [xrt_core::error] derives
    from [std::system_error], hence from [std::runtime_error]; the
    property-tree errors ([ptree_bad_path], [json_parser_error]) derive
    from [std::runtime_error] as well but are not [xrt_core::error]. *)
Inductive errc := operation_canceled.

Inductive exn :=
| xrt_core_error (what : string)       (* xrt_core::error(const std::string&) *)
| xrt_core_error_code (ec : errc)      (* xrt_core::error(std::errc) *)
| std_runtime_error (what : string)    (* any other std::runtime_error *)
| other_exception (what : string).     (* anything else, e.g. std::logic_error *)

(** Modelled from the spec: [xrt_core::error] (core/common/error.h) is a
    domain error carrying its message string, and [what()] gives that string
    back; for the error built from [std::errc::operation_canceled] the text
    is the name of the condition. *)
Definition what (e : exn) : string :=
  match e with
  | xrt_core_error w => w
  | xrt_core_error_code operation_canceled => "Operation canceled"
  | std_runtime_error w => w
  | other_exception w => w
  end.

(** [catch (const std::runtime_error&)]. *)
Definition is_runtime_error (e : exn) : bool :=
  match e with
  | xrt_core_error _ | xrt_core_error_code _ | std_runtime_error _ => true
  | other_exception _ => false
  end.

(** [catch (const xrt_core::error&)]. *)
Definition is_xrt_core_error (e : exn) : bool :=
  match e with
  | xrt_core_error _ | xrt_core_error_code _ => true
  | std_runtime_error _ | other_exception _ => false
  end.

Inductive result (A : Type) :=
| Ok (a : A)
| Throw (e : exn).
Arguments Ok {A} a.
Arguments Throw {A} e.

(** ** boost::property_tree::ptree

    A node holds a data string and an ordered sequence of (key, child)
    pairs; keys may repeat and may be empty (array elements). *)
#[local] Unset Elimination Schemes.
Inductive ptree :=
| Node (data : string) (children : list (string * ptree)).
#[local] Set Elimination Schemes.

Definition data_of (pt : ptree) : string :=
  match pt with Node d _ => d end.

Definition children_of (pt : ptree) : list (string * ptree) :=
  match pt with Node _ cs => cs end.

(** A default-constructed tree ([bpt empty_tree;]). *)
Definition empty_ptree : ptree := Node EmptyString [].

(** [ptree::empty()]: no children. *)
Definition ptree_empty (pt : ptree) : bool :=
  match children_of pt with
  | [] => true
  | _ :: _ => false
  end.

(** Lookup of a one-segment path: every path used in this file is a plain
    key without the [.] separator.  The first child in sequence order that
    carries the key is the one found. *)
Fixpoint find_child (key : string) (cs : list (string * ptree)) : option ptree :=
  match cs with
  | [] => None
  | (k, c) :: rest => if String.eqb k key then Some c else find_child key rest
  end.

(** [pt.get_child(key, default_value)]. *)
Definition get_child (key : string) (default : ptree) (pt : ptree) : ptree :=
  match find_child key (children_of pt) with
  | Some c => c
  | None => default
  end.

(** [pt.get<std::string>(key)]: the data of the child, or [ptree_bad_path]
    (a [std::runtime_error]) when there is no such child. *)
Definition get_string (key : string) (pt : ptree) : result string :=
  match find_child key (children_of pt) with
  | Some c => Ok (data_of c)
  | None => Throw (std_runtime_error ("No such node (" ++ key ++ ")"))
  end.

(** ** boost::property_tree::write_json

    The writer of Boost.PropertyTree (json_parser/detail/write.hpp):
    [create_escapes], [write_json_helper], [verify_json] and
    [write_json_internal]. *)

Definition hexdigit (n : nat) : ascii :=
  match get n "0123456789ABCDEF" with
  | Some c => c
  | None => "0"%char
  end.

(** One character of [create_escapes]: printable ASCII other than the
    quote, the slash and the backslash, and every byte from 0x5D up, are
    copied; the named control characters get their two-character escape;
    what remains is written as a four-digit [\u] escape. *)
Definition escape_char (c : ascii) : string :=
  let n := nat_of_ascii c in
  if ((n =? 32) || (n =? 33) || ((35 <=? n) && (n <=? 46))
      || ((48 <=? n) && (n <=? 91)) || ((93 <=? n) && (n <=? 255)))%nat
  then String c EmptyString
  else if (n =? 8)%nat then "\b"
  else if (n =? 12)%nat then "\f"
  else if (n =? 10)%nat then "\n"
  else if (n =? 13)%nat then "\r"
  else if (n =? 9)%nat then "\t"
  else if (n =? 47)%nat then "\/"
  else if (n =? 34)%nat then String "\"%char (String dquote EmptyString)
  else if (n =? 92)%nat then "\\"
  else
    let d1 := n / 4096 in
    let u1 := n - d1 * 4096 in
    let d2 := u1 / 256 in
    let u2 := u1 - d2 * 256 in
    let d3 := u2 / 16 in
    let d4 := u2 - d3 * 16 in
    String "\"%char
      (String "u"%char
         (String (hexdigit d1)
            (String (hexdigit d2) (String (hexdigit d3) (String (hexdigit d4) EmptyString))))).

Fixpoint create_escapes (s : string) : string :=
  match s with
  | EmptyString => EmptyString
  | String c rest => escape_char c ++ create_escapes rest
  end.

Definition quoted (s : string) : string :=
  String dquote (create_escapes s) ++ String dquote EmptyString.

(** [pt.count(Str())]: the number of children whose key is empty. *)
Definition count_empty_keys (cs : list (string * ptree)) : nat :=
  List.length (filter (fun kc => string_empty (fst kc)) cs).

(** The loop shared by the array and the object case of
    [write_json_helper], over the already written elements: indentation,
    the element, a comma unless it is the last one, a line feed. *)
Fixpoint json_items (pretty : bool) (indent : nat) (items : list string) : string :=
  match items with
  | [] => EmptyString
  | x :: rest =>
      (if pretty then spaces (4 * (indent + 1)) else EmptyString)
      ++ x
      ++ (match rest with [] => EmptyString | _ :: _ => "," end)
      ++ (if pretty then nl else EmptyString)
      ++ json_items pretty indent rest
  end.

Fixpoint write_json_helper (pt : ptree) (indent : nat) (pretty : bool) : string :=
  match pt with
  | Node data children =>
      if (0 <? indent)%nat && ptree_empty pt then
        (* value *)
        quoted data
      else if (0 <? indent)%nat && (count_empty_keys children =? List.length children)%nat then
        (* array *)
        "[" ++ (if pretty then nl else EmptyString)
        ++ json_items pretty indent
             (map (fun kc => write_json_helper (snd kc) (indent + 1) pretty) children)
        ++ (if pretty then spaces (4 * indent) else EmptyString)
        ++ "]"
      else
        (* object *)
        "{" ++ (if pretty then nl else EmptyString)
        ++ json_items pretty indent
             (map (fun kc =>
                     quoted (fst kc) ++ ":" ++ (if pretty then " " else EmptyString)
                     ++ write_json_helper (snd kc) (indent + 1) pretty) children)
        ++ (if pretty then spaces (4 * indent) else EmptyString)
        ++ "}"
  end.

(** [verify_json]: the root carries no data, and no node carries both data
    and children. *)
Fixpoint verify_json (pt : ptree) (depth : nat) : bool :=
  match pt with
  | Node data children =>
      if (depth =? 0)%nat && negb (string_empty data) then false
      else if negb (string_empty data) && negb (ptree_empty pt) then false
      else forallb (fun kc => verify_json (snd kc) (depth + 1)) children
  end.

(** [write_json(stream, pt, pretty)]: the text sent to the stream, ended by
    [std::endl], or [json_parser_error] (a [std::runtime_error]) before
    anything is written. *)
Definition write_json (pt : ptree) (pretty : bool) : result string :=
  if verify_json pt 0 then Ok (write_json_helper pt 0 pretty ++ nl)
  else Throw (std_runtime_error
                "<unspecified file>: ptree contains data that cannot be represented in JSON format").

(** ** Table2D (tools/common/Table2D.h) *)

Module Table2D.

(** Modelled from the spec: [Table2D::Justification] is missing from the
    sources; the report only ever asks for left-justified fields. *)
Inductive Justification := left.

(** Modelled from the spec: [Table2D::HeaderData] is missing from the
    sources; a column header is a name and a justification, as the
    initialiser list of [preempt_headers] builds it. *)
Record HeaderData := { header : string; justification : Justification }.

(** Modelled from the spec: the [Table2D] class is missing from the
    sources.  A table is built from its column headers, takes one entry
    (a row of fields) at a time, and prints as a header row followed by
    one row per entry in the order they were added, every row behind the
    given left margin and every field justified in its column. *)
Record t := { m_headers : list HeaderData; m_entries : list (list string) }.

(** Modelled from the spec: the constructor [Table2D(headers)], a table
    with these columns and no entry yet. *)
Definition make (headers : list HeaderData) : t :=
  {| m_headers := headers; m_entries := [] |}.

(** Modelled from the spec: [Table2D::addEntry], one more row, after the
    rows already there. *)
Definition addEntry (entry : list string) (tb : t) : t :=
  {| m_headers := m_headers tb; m_entries := (m_entries tb ++ [entry])%list |}.

(** Modelled from the spec: the rows of the printed table, the header row
    first, then the data rows. *)
Definition rows (tb : t) : list (list string) :=
  map header (m_headers tb) :: m_entries tb.

(** Modelled from the spec: a column is as wide as its longest field, the
    header included. *)
Definition column_width (col : nat) (tb : t) : nat :=
  fold_right (fun row w => Nat.max (String.length (nth col row EmptyString)) w) 0 (rows tb).

(** Modelled from the spec: a field justified in its column. *)
Definition cell (j : Justification) (width : nat) (s : string) : string :=
  match j with
  | left => s ++ spaces (width - String.length s)
  end.

(** Modelled from the spec: the gap between two columns, which the spec
    leaves open; two blanks are used. *)
Definition column_gap : string := "  ".

(** Modelled from the spec: the fields of one row, column after column. *)
Fixpoint render_cells (tb : t) (col : nat) (hs : list HeaderData) (row : list string) : string :=
  match hs with
  | [] => EmptyString
  | h :: hs' =>
      cell (justification h) (column_width col tb) (nth col row EmptyString)
      ++ (match hs' with [] => EmptyString | _ :: _ => column_gap end)
      ++ render_cells tb (S col) hs' row
  end.

(** Modelled from the spec: the printed lines of [Table2D::toString],
    without their line feeds, each behind the margin [prefix]. *)
Definition lines (prefix : string) (tb : t) : list string :=
  map (fun row => prefix ++ render_cells tb 0 (m_headers tb) row) (rows tb).

(** Modelled from the spec: [Table2D::toString(prefix)], the lines one
    after the other, each ended by a line feed. *)
Definition toString (prefix : string) (tb : t) : string :=
  String.concat EmptyString (map (fun l => l ++ nl) (lines prefix tb)).

End Table2D.

(** ** The process as seen from outside

    What a call of this file leaves behind: the text that the statements
    of this file send to [std::cout] and to [std::cerr], the messages
    handed to [XBUtilities::verbose], and the calls made to the
    collaborators, oldest first.  What a collaborator prints on its own
    (the usage text of [printHelp], a message of the option parser) is not
    part of [cout] and [cerr]: the call is recorded in [calls] and stands
    for it. *)

(** An opaque device handle. *)
Inductive device := Device (index : nat).

Definition SubCmdOptions := list string.

Inductive call :=
| call_printHelp
| call_process_arguments (_options : SubCmdOptions)
| call_get_device (id : string) (inUserDomain : bool)
| call_get_clock_info (d : device)
| call_preemption_telemetry_info (d : device).

Record world := {
  cout : string;
  cerr : string;
  verbose_log : list string;
  calls : list call
}.

Definition initial_world : world :=
  {| cout := EmptyString; cerr := EmptyString; verbose_log := []; calls := [] |}.

(** Computations that act on the world and either return or throw. *)
Definition M (A : Type) : Type := world -> result A * world.

Definition ret {A} (a : A) : M A := fun w => (Ok a, w).

Definition throw {A} (e : exn) : M A := fun w => (Throw e, w).

Definition bind {A B} (m : M A) (f : A -> M B) : M B :=
  fun w =>
    match m w with
    | (Ok a, w') => f a w'
    | (Throw e, w') => (Throw e, w')
    end.

(** [try { body } catch (const T& e) { handler }], with [catches] telling
    which exceptions are a [T]. *)
Definition try_catch {A} (body : M A) (catches : exn -> bool) (handler : exn -> M A) : M A :=
  fun w =>
    match body w with
    | (Ok a, w') => (Ok a, w')
    | (Throw e, w') => if catches e then handler e w' else (Throw e, w')
    end.

Definition lift {A} (r : result A) : M A := fun w => (r, w).

Declare Scope monad_scope.
Delimit Scope monad_scope with monad.
Notation "x <- c1 ;; c2" := (bind c1 (fun x => c2))
  (at level 61, c1 at next level, right associativity) : monad_scope.
Notation "c1 ;; c2" := (bind c1 (fun _ => c2))
  (at level 61, right associativity) : monad_scope.
Open Scope monad_scope.

(** The world after more text on [std::cout], more text on [std::cerr], one
    more verbose message, one more call. *)
Definition put_cout (s : string) (w : world) : world :=
  {| cout := cout w ++ s; cerr := cerr w;
     verbose_log := verbose_log w; calls := calls w |}.

Definition put_cerr (s : string) (w : world) : world :=
  {| cout := cout w; cerr := cerr w ++ s;
     verbose_log := verbose_log w; calls := calls w |}.

Definition put_verbose (msg : string) (w : world) : world :=
  {| cout := cout w; cerr := cerr w;
     verbose_log := (verbose_log w ++ [msg])%list; calls := calls w |}.

Definition put_call (c : call) (w : world) : world :=
  {| cout := cout w; cerr := cerr w;
     verbose_log := verbose_log w; calls := (calls w ++ [c])%list |}.

(** [std::cout << s]. *)
Definition write_cout (s : string) : M unit := fun w => (Ok tt, put_cout s w).

(** [std::cerr << s]. *)
Definition write_cerr (s : string) : M unit := fun w => (Ok tt, put_cerr s w).

(** [XBUtilities::verbose(msg)]. *)
Definition verbose (msg : string) : M unit := fun w => (Ok tt, put_verbose msg w).

(** A call to a collaborator: it is recorded, then it returns or throws.
    Whatever the collaborator prints meanwhile is behind the recorded
    call, not in [cout] or [cerr]. *)
Definition collaborator {A} (c : call) (r : result A) : M A :=
  fun w => (r, put_call c w).

(** [printHelp()]: the usage text comes from the help-menu code outside this
    file and is printed there; here the call is recorded, and the usage
    text is not part of [cout]. *)
Definition printHelp : M unit := collaborator call_printHelp (Ok tt).

Fixpoint for_each {A} (l : list A) (body : A -> M unit) : M unit :=
  match l with
  | [] => ret tt
  | x :: rest => body x ;; for_each rest body
  end.

(** The members of [OO_Reports] that the option parser fills in. *)
Record OO_Reports := {
  m_device : string;
  m_action : string;
  m_help : bool;
  m_json : bool
}.

(** A loop that carries a local variable ([ss], the table) through its body. *)
Fixpoint for_each_acc {A S} (l : list A) (acc : S) (body : A -> S -> M S) : M S :=
  match l with
  | [] => ret acc
  | x :: rest => acc' <- body x acc ;; for_each_acc rest acc' body
  end.

(** The column headers of the preemption table. *)
Definition preempt_headers : list Table2D.HeaderData :=
  [ {| Table2D.header := "User Task"; Table2D.justification := Table2D.left |};
    {| Table2D.header := "Ctx ID"; Table2D.justification := Table2D.left |};
    {| Table2D.header := "Set Hints"; Table2D.justification := Table2D.left |};
    {| Table2D.header := "Unset Hints"; Table2D.justification := Table2D.left |};
    {| Table2D.header := "Checkpoint Events"; Table2D.justification := Table2D.left |};
    {| Table2D.header := "Frame Boundary Events"; Table2D.justification := Table2D.left |} ].

(** The braced initialiser of [rtos_data]: six lookups, in order. *)
Definition rtos_data (user_task : ptree) : M (list string) :=
  f1 <- lift (get_string "user_task" user_task) ;;
  f2 <- lift (get_string "slot_index" user_task) ;;
  f3 <- lift (get_string "preemption_flag_set" user_task) ;;
  f4 <- lift (get_string "preemption_flag_unset" user_task) ;;
  f5 <- lift (get_string "preemption_checkpoint_event" user_task) ;;
  f6 <- lift (get_string "preemption_frame_boundary_events" user_task) ;;
  ret [f1; f2; f3; f4; f5; f6].

Section Report.

(** The collaborators outside this file, each returning or throwing:
    - [OptionOptions::process_arguments], which runs the option parser over
      the descriptions set up by the constructor and fills the members;
    - [XBUtilities::get_device];
    - [xrt_core::platform::get_clock_info];
    - [xrt_core::telemetry::preemption_telemetry_info]. *)
Variable process_arguments : SubCmdOptions -> result OO_Reports.
Variable get_device : string -> bool -> result device.
Variable get_clock_info : device -> result ptree.
Variable preemption_telemetry_info : device -> result ptree.

Definition print_clock_info (dev : device) (is_json : bool) : M unit :=
  let empty_tree := empty_ptree in
  clocks <- collaborator (call_get_clock_info dev) (get_clock_info dev) ;;
  let pt_clock_array := get_child "clocks" empty_tree clocks in
  let ss := "Clocks" ++ nl in
  if ptree_empty pt_clock_array then
    let ss := ss ++ "  No clock information available" ++ nl ++ nl in
    write_cout ss
  else if is_json then
    (* the stream [ss] is dropped: only the document reaches std::cout *)
    text <- lift (write_json clocks true) ;;
    write_cout text
  else
    (* the language leaves open which operand of the % chain is evaluated
       first; as g++ compiles it, the lookup of freq_mhz comes before the
       lookup of id *)
    ss <- for_each_acc (children_of pt_clock_array) ss
            (fun kc ss =>
               let pt_clock := snd kc in
               freq_mhz <- lift (get_string "freq_mhz" pt_clock) ;;
               id <- lift (get_string "id" pt_clock) ;;
               ret (ss ++ format_clock_line id freq_mhz)) ;;
    write_cout ss.

Definition print_preemption_telemetry (dev : device) (is_json : bool) : M unit :=
  let empty_ptree := empty_ptree in
  telemetry_pt <- collaborator (call_preemption_telemetry_info dev)
                               (preemption_telemetry_info dev) ;;
  let telemetry_array := get_child "telemetry" empty_ptree telemetry_pt in
  let ss := "Premption Telemetry Data" ++ nl in
  if ptree_empty telemetry_array then
    let ss := ss ++ " No hardware contexts running on device" ++ nl ++ nl in
    write_cout ss
  else if is_json then
    text <- lift (write_json telemetry_pt true) ;;
    write_cout text
  else
    let preemption_table := Table2D.make preempt_headers in
    preemption_table <-
      for_each_acc (children_of telemetry_array) preemption_table
        (fun kc tb =>
           let user_task := snd kc in
           row <- rtos_data user_task ;;
           ret (Table2D.addEntry row tb)) ;;
    let ss := ss ++ Table2D.toString "  " preemption_table ++ nl in
    write_cout ss.

Definition execute (_options : SubCmdOptions) : M unit :=
  verbose "SubCommand option: report" ;;
  verbose "Option(s):" ;;
  for_each _options (fun aString => verbose (" " ++ aString)) ;;
  (* Honor help option first *)
  if existsb (String.eqb "--help") _options then
    printHelp
  else
    (* Parse sub-command ... *)
    this <- collaborator (call_process_arguments _options) (process_arguments _options) ;;
    if m_help this then
      printHelp
    else if string_empty (m_action this) then
      write_cerr ("ERROR: the required argument for option '--report' is missing" ++ nl) ;;
      printHelp ;;
      throw (xrt_core_error_code operation_canceled)
    else
      (* Find device of interest *)
      dev <- try_catch
               (let id := to_lower_copy (m_device this) in
                collaborator (call_get_device id true) (get_device id true))
               is_runtime_error
               (fun e =>
                  write_cerr ("ERROR: " ++ what e ++ nl) ;;
                  throw (xrt_core_error_code operation_canceled)) ;;
      try_catch
        (if iequals (m_action this) "clocks" then
           print_clock_info dev (m_json this)
         else if iequals (m_action this) "preemption" then
           print_preemption_telemetry dev (m_json this)
         else
           throw (xrt_core_error ("Invalid report value: '" ++ m_action this ++ "'" ++ nl)))
        is_xrt_core_error
        (fun e =>
           write_cerr (nl ++ "ERROR: " ++ what e ++ nl) ;;
           printHelp ;;
           throw (xrt_core_error_code operation_canceled)).

End Report.

(** ** A command line, a machine and its data, to run the model on *)

(** Modelled from the spec: the option parser behind [process_arguments] is
    missing from the sources.  It accepts [--device] or [-d] followed by an
    identifier, the switches [--help] and [--json], and one positional
    argument, the mode; the members start from the values the constructor
    gives them.  Anything else is refused with the cancellation error. *)
Fixpoint parse_tokens (toks : list string) (positionals : nat) (o : OO_Reports)
  : result OO_Reports :=
  match toks with
  | [] => Ok o
  | tok :: rest =>
      if String.eqb tok "--help" then
        parse_tokens rest positionals
          {| m_device := m_device o; m_action := m_action o; m_help := true; m_json := m_json o |}
      else if String.eqb tok "--json" then
        parse_tokens rest positionals
          {| m_device := m_device o; m_action := m_action o; m_help := m_help o; m_json := true |}
      else if String.eqb tok "--device" || String.eqb tok "-d" then
        match rest with
        | id :: rest' =>
            parse_tokens rest' positionals
              {| m_device := id; m_action := m_action o; m_help := m_help o; m_json := m_json o |}
        | [] => Throw (xrt_core_error_code operation_canceled)
        end
      else if starts_with "-" tok then
        Throw (xrt_core_error_code operation_canceled)
      else
        match positionals with
        | O =>
            parse_tokens rest 1
              {| m_device := m_device o; m_action := tok; m_help := m_help o; m_json := m_json o |}
        | S _ => Throw (xrt_core_error_code operation_canceled)
        end
  end.

Definition cli_process_arguments (_options : SubCmdOptions) : result OO_Reports :=
  parse_tokens _options 0
    {| m_device := EmptyString; m_action := EmptyString; m_help := false; m_json := false |}.

(** One machine: the device at 0000:d8:00.0, also picked when no identifier
    is given, has two clocks and two hardware contexts; a second device at
    0000:d9:00.0 reports nothing. *)
Definition lab_get_device (id : string) (inUserDomain : bool) : result device :=
  if string_empty id || String.eqb id "0000:d8:00.0" then Ok (Device 0)
  else if String.eqb id "0000:d9:00.0" then Ok (Device 1)
  else Throw (std_runtime_error ("Specified device BDF '" ++ id ++ "' not found"))%string.

Definition field (key value : string) : string * ptree := (key, Node value []).

Definition lab_clocks : ptree :=
  Node EmptyString
    [ ("clocks",
       Node EmptyString
         [ (EmptyString, Node EmptyString [field "id" "DATA_CLK"; field "freq_mhz" "300"]);
           (EmptyString, Node EmptyString [field "id" "KERNEL_CLK"; field "freq_mhz" "50"]) ]) ].

Definition lab_get_clock_info (dev : device) : result ptree :=
  match dev with
  | Device 0 => Ok lab_clocks
  | Device _ => Ok empty_ptree
  end.

Definition lab_context (task slot : string) : string * ptree :=
  (EmptyString,
   Node EmptyString
     [ field "user_task" task; field "slot_index" slot;
       field "preemption_flag_set" "4"; field "preemption_flag_unset" "1";
       field "preemption_checkpoint_event" "7";
       field "preemption_frame_boundary_events" "12" ]).

Definition lab_telemetry : ptree :=
  Node EmptyString
    [ ("telemetry", Node EmptyString [lab_context "0" "3"; lab_context "1" "5"]) ].

Definition lab_preemption_telemetry_info (dev : device) : result ptree :=
  match dev with
  | Device 0 => Ok lab_telemetry
  | Device _ => Ok empty_ptree
  end.

(** The members after parsing, spelled out. *)
Definition parsed (device action : string) (help json : bool) : OO_Reports :=
  {| m_device := device; m_action := action; m_help := help; m_json := json |}.

(** [execute] on that machine. *)
Definition lab_execute : SubCmdOptions -> M unit :=
  execute cli_process_arguments lab_get_device lab_get_clock_info
          lab_preemption_telemetry_info.

(** ** Vocabulary of the statements *)

(** The world once [execute] has logged its options. *)
Definition log_options (_options : SubCmdOptions) (w : world) : world :=
  fold_left (fun w aString => put_verbose (" " ++ aString) w) _options
    (put_verbose "Option(s):" (put_verbose "SubCommand option: report" w)).

(** Is there a child named [key], and what does it hold? *)
Definition has_field (key : string) (pt : ptree) : bool :=
  match find_child key (children_of pt) with
  | Some _ => true
  | None => false
  end.

Definition field_data (key : string) (pt : ptree) : string :=
  match find_child key (children_of pt) with
  | Some c => data_of c
  | None => EmptyString
  end.

(** Every entry of a sequence has all the fields named in [keys]. *)
Definition entries_have (keys : list string) (entries : list (string * ptree)) : bool :=
  forallb (fun kc => forallb (fun key => has_field key (snd kc)) keys) entries.

Definition clock_keys : list string := ["id"; "freq_mhz"].

Definition telemetry_keys : list string :=
  ["user_task"; "slot_index"; "preemption_flag_set"; "preemption_flag_unset";
   "preemption_checkpoint_event"; "preemption_frame_boundary_events"].

(** The clock entries of a fetched clock-info structure and the hardware
    contexts of a fetched telemetry structure, as the renderers reach them. *)
Definition clock_entries (clocks : ptree) : list (string * ptree) :=
  children_of (get_child "clocks" empty_ptree clocks).

Definition telemetry_contexts (telemetry_pt : ptree) : list (string * ptree) :=
  children_of (get_child "telemetry" empty_ptree telemetry_pt).

(** The closed set of reports, the report a name stands for once its
    letter case is put aside, and the renderer and the fetch of each. *)
Inductive report := report_clocks | report_preemption.

Definition report_named (name : string) : option report :=
  if String.eqb (to_lower_copy name) "clocks" then Some report_clocks
  else if String.eqb (to_lower_copy name) "preemption" then Some report_preemption
  else None.

Definition render (get_clock_info preemption_telemetry_info : device -> result ptree)
           (r : report) : device -> bool -> M unit :=
  match r with
  | report_clocks => print_clock_info get_clock_info
  | report_preemption => print_preemption_telemetry preemption_telemetry_info
  end.

Definition renderer_call (r : report) (dev : device) : call :=
  match r with
  | report_clocks => call_get_clock_info dev
  | report_preemption => call_preemption_telemetry_info dev
  end.

(** A computation whose calls to collaborators all satisfy [P]. *)
Definition makes_calls (P : call -> Prop) {A} (m : M A) : Prop :=
  forall w, exists tail,
    calls (snd (m w)) = (calls w ++ tail)%list /\ Forall P tail.


(** ** Vocabulary of the further statements *)

(** How often a character occurs in a string. *)
Fixpoint count_char (c : ascii) (s : string) : nat :=
  match s with
  | EmptyString => 0
  | String x rest => (if Ascii.eqb x c then 1 else 0) + count_char c rest
  end.

Definition is_printHelp (c : call) : bool :=
  match c with
  | call_printHelp => true
  | _ => false
  end.

Definition is_lookup (c : call) : bool :=
  match c with
  | call_get_device _ _ => true
  | _ => false
  end.

Definition is_fetch (c : call) : bool :=
  match c with
  | call_get_clock_info _ | call_preemption_telemetry_info _ => true
  | _ => false
  end.

(** The lines [execute] logs through [XBUtilities::verbose]. *)
Definition logged_lines (_options : SubCmdOptions) : list string :=
  "SubCommand option: report" :: "Option(s):" :: map (fun aString => " " ++ aString) _options.

(** The world after the parser was called, and after the device lookup. *)
Definition after_parse (_options : SubCmdOptions) (w : world) : world :=
  put_call (call_process_arguments _options) (log_options _options w).

Definition after_lookup (_options : SubCmdOptions) (this : OO_Reports) (w : world) : world :=
  put_call (call_get_device (to_lower_copy (m_device this)) true) (after_parse _options w).

Section Outcomes.

Variable process_arguments : SubCmdOptions -> result OO_Reports.
Variable get_device : string -> bool -> result device.
Variable get_clock_info : device -> result ptree.
Variable preemption_telemetry_info : device -> result ptree.


(** The ways through [execute], read off its branches from top to bottom:
    each gives the result and the world the command ends with. *)
Inductive execute_outcome (_options : SubCmdOptions) (w : world)
  : result unit -> world -> Prop :=
| outcome_help :
    In "--help" _options ->
    execute_outcome _options w
      (Ok tt) (put_call call_printHelp (log_options _options w))
| outcome_parse_failed (e : exn) :
    existsb (String.eqb "--help") _options = false ->
    process_arguments _options = Throw e ->
    execute_outcome _options w (Throw e) (after_parse _options w)
| outcome_help_flag (this : OO_Reports) :
    existsb (String.eqb "--help") _options = false ->
    process_arguments _options = Ok this ->
    m_help this = true ->
    execute_outcome _options w
      (Ok tt) (put_call call_printHelp (after_parse _options w))
| outcome_mode_missing (this : OO_Reports) :
    existsb (String.eqb "--help") _options = false ->
    process_arguments _options = Ok this ->
    m_help this = false ->
    string_empty (m_action this) = true ->
    execute_outcome _options w
      (Throw (xrt_core_error_code operation_canceled))
      (put_call call_printHelp
         (put_cerr ("ERROR: the required argument for option '--report' is missing" ++ nl)
            (after_parse _options w)))
| outcome_lookup_failed (this : OO_Reports) (e : exn) :
    existsb (String.eqb "--help") _options = false ->
    process_arguments _options = Ok this ->
    m_help this = false ->
    string_empty (m_action this) = false ->
    get_device (to_lower_copy (m_device this)) true = Throw e ->
    is_runtime_error e = true ->
    execute_outcome _options w
      (Throw (xrt_core_error_code operation_canceled))
      (put_cerr ("ERROR: " ++ what e ++ nl) (after_lookup _options this w))
| outcome_lookup_escaped (this : OO_Reports) (e : exn) :
    existsb (String.eqb "--help") _options = false ->
    process_arguments _options = Ok this ->
    m_help this = false ->
    string_empty (m_action this) = false ->
    get_device (to_lower_copy (m_device this)) true = Throw e ->
    is_runtime_error e = false ->
    execute_outcome _options w (Throw e) (after_lookup _options this w)
| outcome_invalid_report (this : OO_Reports) (dev : device) :
    existsb (String.eqb "--help") _options = false ->
    process_arguments _options = Ok this ->
    m_help this = false ->
    string_empty (m_action this) = false ->
    get_device (to_lower_copy (m_device this)) true = Ok dev ->
    report_named (m_action this) = None ->
    execute_outcome _options w
      (Throw (xrt_core_error_code operation_canceled))
      (put_call call_printHelp
         (put_cerr (nl ++ "ERROR: Invalid report value: '" ++ m_action this ++ "'" ++ nl ++ nl)
            (after_lookup _options this w)))
| outcome_report_done (this : OO_Reports) (dev : device) (r : report) (out : string) :
    existsb (String.eqb "--help") _options = false ->
    process_arguments _options = Ok this ->
    m_help this = false ->
    get_device (to_lower_copy (m_device this)) true = Ok dev ->
    report_named (m_action this) = Some r ->
    render get_clock_info preemption_telemetry_info r dev (m_json this)
           (after_lookup _options this w)
    = (Ok tt, put_cout out (put_call (renderer_call r dev) (after_lookup _options this w))) ->
    execute_outcome _options w
      (Ok tt) (put_cout out (put_call (renderer_call r dev) (after_lookup _options this w)))
| outcome_report_escaped (this : OO_Reports) (dev : device) (r : report) (e : exn) :
    existsb (String.eqb "--help") _options = false ->
    process_arguments _options = Ok this ->
    m_help this = false ->
    get_device (to_lower_copy (m_device this)) true = Ok dev ->
    report_named (m_action this) = Some r ->
    render get_clock_info preemption_telemetry_info r dev (m_json this)
           (after_lookup _options this w)
    = (Throw e, put_call (renderer_call r dev) (after_lookup _options this w)) ->
    is_xrt_core_error e = false ->
    execute_outcome _options w
      (Throw e) (put_call (renderer_call r dev) (after_lookup _options this w))
| outcome_report_failed (this : OO_Reports) (dev : device) (r : report) (e : exn) :
    existsb (String.eqb "--help") _options = false ->
    process_arguments _options = Ok this ->
    m_help this = false ->
    get_device (to_lower_copy (m_device this)) true = Ok dev ->
    report_named (m_action this) = Some r ->
    render get_clock_info preemption_telemetry_info r dev (m_json this)
           (after_lookup _options this w)
    = (Throw e, put_call (renderer_call r dev) (after_lookup _options this w)) ->
    is_xrt_core_error e = true ->
    execute_outcome _options w
      (Throw (xrt_core_error_code operation_canceled))
      (put_call call_printHelp
         (put_cerr (nl ++ "ERROR: " ++ what e ++ nl)
            (put_call (renderer_call r dev) (after_lookup _options this w)))).

End Outcomes.

(** More of the lab: a clock entry without its frequency, a hardware
    context without its slot index, a fetch that fails, and an option
    parser that also takes the prefix [--hel] for [--help]. *)
Definition faulty_clocks : ptree :=
  Node EmptyString
    [ ("clocks",
       Node EmptyString
         [ (EmptyString, Node EmptyString [field "id" "DATA_CLK"; field "freq_mhz" "300"]);
           (EmptyString, Node EmptyString [field "id" "KERNEL_CLK"]) ]) ].

Definition faulty_get_clock_info (dev : device) : result ptree := Ok faulty_clocks.

Definition faulty_telemetry : ptree :=
  Node EmptyString
    [ ("telemetry",
       Node EmptyString
         [ lab_context "0" "3";
           (EmptyString, Node EmptyString [field "user_task" "1"]) ]) ].

Definition faulty_preemption_telemetry_info (dev : device) : result ptree :=
  Ok faulty_telemetry.


Definition guessing_process_arguments (_options : SubCmdOptions) : result OO_Reports :=
  if existsb (String.eqb "--hel") _options
  then Ok (parsed EmptyString EmptyString true false)
  else cli_process_arguments _options.

(** ** Reports as records, for the statements about JSON *)

(** A printable ASCII character other than the double quote, the slash and
    the backslash: JSON text holds it as it is. *)
Definition plain_char (c : ascii) : bool :=
  let n := nat_of_ascii c in
  ((32 <=? n) && (n <=? 126) && negb (n =? 34) && negb (n =? 47) && negb (n =? 92))%nat.

Fixpoint plain (s : string) : bool :=
  match s with
  | EmptyString => true
  | String c rest => plain_char c && plain rest
  end.

(** A string between double quotes. *)
Definition in_quotes (s : string) : string :=
  String dquote (s ++ String dquote EmptyString).

(** A record of a report has at least one field, and its field names are
    not empty; names and values are plain. *)
Definition record_ok (fields : list (string * string)) : bool :=
  negb (Nat.eqb (List.length fields) 0)
  && forallb (fun kv => negb (string_empty (fst kv)) && plain (fst kv) && plain (snd kv))
             fields.

(** The structure a fetch returns for a sequence of records: one child,
    named [key], whose children are the records, each under an empty key
    and each holding its fields as leaves. *)
Definition report_tree (key : string) (records : list (list (string * string))) : ptree :=
  Node EmptyString
    [ (key,
       Node EmptyString
         (map (fun fields =>
                 (EmptyString,
                  Node EmptyString (map (fun kv => (fst kv, Node (snd kv) [])) fields)))
              records)) ].


Definition lab_context_record (task slot : string) : list (string * string) :=
  [ ("user_task", task); ("slot_index", slot);
    ("preemption_flag_set", "4"); ("preemption_flag_unset", "1");
    ("preemption_checkpoint_event", "7");
    ("preemption_frame_boundary_events", "12") ].

Definition lab_context_records : list (list (string * string)) :=
  [ lab_context_record "0" "3"; lab_context_record "1" "5" ].

(** ** Strings: append, prefixes, letter case *)

Lemma append_assoc (a b c : string) : (a ++ b) ++ c = a ++ (b ++ c).
Proof.
  induction a as [|x a IH]; simpl; [reflexivity | now rewrite IH].
Qed.

Lemma append_nil_r (a : string) : a ++ EmptyString = a.
Proof.
  induction a as [|x a IH]; simpl; [reflexivity | now rewrite IH].
Qed.

Lemma length_append (a b : string) :
  String.length (a ++ b) = String.length a + String.length b.
Proof.
  induction a as [|x a IH]; simpl; [reflexivity | now rewrite IH].
Qed.

Lemma length_spaces (n : nat) : String.length (spaces n) = n.
Proof.
  induction n as [|n IH]; simpl; [reflexivity | now rewrite IH].
Qed.

Lemma starts_with_append (p rest : string) : starts_with p (p ++ rest) = true.
Proof.
  induction p as [|x p IH]; simpl; [reflexivity | ].
  now rewrite Ascii.eqb_refl, IH.
Qed.

Lemma toupper_tolower (c : ascii) : toupper (tolower c) = toupper c.
Proof.
  destruct c as [b0 b1 b2 b3 b4 b5 b6 b7].
  destruct b0, b1, b2, b3, b4, b5, b6, b7; reflexivity.
Qed.

Lemma tolower_toupper (c : ascii) : tolower (toupper c) = tolower c.
Proof.
  destruct c as [b0 b1 b2 b3 b4 b5 b6 b7].
  destruct b0, b1, b2, b3, b4, b5, b6, b7; reflexivity.
Qed.

(** Two strings that lower-case to the same string are equal for
    [boost::iequals], and the other way round. *)
Lemma iequals_to_lower (a b : string) :
  iequals a b = true <-> to_lower_copy a = to_lower_copy b.
Proof.
  revert b. induction a as [|x a IH]; intros [|y b]; simpl;
    try (split; [discriminate | discriminate]); [tauto | ].
  rewrite andb_true_iff, Ascii.eqb_eq. fold (to_lower_copy a) (to_lower_copy b).
  split.
  - intros [Hc Hs]. apply IH in Hs. rewrite Hs. f_equal.
    rewrite <- (tolower_toupper x), Hc. apply tolower_toupper.
  - intros H. injection H as Hc Hs. split; [ | now apply IH].
    rewrite <- (toupper_tolower x), Hc. apply toupper_tolower.
Qed.

(** The length of a formatted field is the width, or the length of the
    argument when that is larger. *)
Lemma length_format_s (left_flag : bool) (width : nat) (arg : string) :
  String.length (format_s left_flag width arg) = Nat.max width (String.length arg).
Proof.
  unfold format_s. destruct left_flag; rewrite length_append, length_spaces; lia.
Qed.

(** ** The monad: worlds only grow *)

Lemma for_each_verbose (l : list string) (w : world) :
  for_each l (fun aString => verbose (" " ++ aString)) w
  = (Ok tt, fold_left (fun w aString => put_verbose (" " ++ aString) w) l w).
Proof.
  revert w. induction l as [|x l IH]; intros w; simpl; [reflexivity | ].
  unfold bind, verbose at 1. apply IH.
Qed.

(** A loop whose body neither throws nor touches the world. *)
Lemma for_each_acc_pure {A S} (step : A -> S -> S) (body : A -> S -> M S)
      (l : list A) :
  (forall x, In x l -> forall acc w, body x acc w = (Ok (step x acc), w)) ->
  forall acc w,
    for_each_acc l acc body w = (Ok (fold_left (fun acc x => step x acc) l acc), w).
Proof.
  induction l as [|x l IH]; intros Hbody acc w; simpl; [reflexivity | ].
  unfold bind. rewrite (Hbody x (or_introl eq_refl)).
  apply IH. intros y Hy. apply Hbody. now right.
Qed.

(** A loop whose body may throw but leaves the world alone does so too. *)
Lemma for_each_acc_world {A S} (body : A -> S -> M S) (l : list A) :
  (forall x acc w, snd (body x acc w) = w) ->
  forall acc w, snd (for_each_acc l acc body w) = w.
Proof.
  intros Hbody. induction l as [|x l IH]; intros acc w; simpl; [reflexivity | ].
  unfold bind. specialize (Hbody x acc w).
  destruct (body x acc w) as [[acc'|e] w']; simpl in *; subst; [apply IH | reflexivity].
Qed.

Lemma fold_left_append_lines {A} (line : A -> string) (l : list A) (ss : string) :
  fold_left (fun acc x => acc ++ line x) l ss
  = ss ++ String.concat EmptyString (map line l).
Proof.
  revert ss. induction l as [|x l IH]; intros ss; simpl.
  - now rewrite append_nil_r.
  - rewrite IH. destruct l as [|y l]; simpl.
    + now rewrite append_nil_r.
    + now rewrite append_assoc.
Qed.

(** ** The clock report *)

Section ClockReport.

Variable get_clock_info : device -> result ptree.

Lemma clock_loop (entries : list (string * ptree)) (ss : string) (w : world) :
  entries_have clock_keys entries = true ->
  for_each_acc entries ss
    (fun kc ss =>
       let pt_clock := snd kc in
       freq_mhz <- lift (get_string "freq_mhz" pt_clock) ;;
       id <- lift (get_string "id" pt_clock) ;;
       ret (ss ++ format_clock_line id freq_mhz)) w
  = (Ok (ss ++ String.concat EmptyString
                 (map (fun kc => format_clock_line (field_data "id" (snd kc))
                                                   (field_data "freq_mhz" (snd kc)))
                      entries)), w).
Proof.
  intros Hwf.
  rewrite <- fold_left_append_lines.
  apply (for_each_acc_pure
           (fun kc ss => ss ++ format_clock_line (field_data "id" (snd kc))
                                                 (field_data "freq_mhz" (snd kc)))).
  intros kc Hin acc w'.
  unfold entries_have in Hwf. rewrite forallb_forall in Hwf.
  specialize (Hwf kc Hin). simpl in Hwf.
  unfold has_field in Hwf. unfold bind, lift, ret, get_string, field_data.
  destruct (find_child "id" (children_of (snd kc))); [ | discriminate].
  destruct (find_child "freq_mhz" (children_of (snd kc))); [ | discriminate].
  reflexivity.
Qed.

(** The table branch, run: the header, then the formatted line of every
    entry. *)
Lemma clock_report_table (dev : device) (clocks : ptree) (w : world) :
  get_clock_info dev = Ok clocks ->
  ptree_empty (get_child "clocks" empty_ptree clocks) = false ->
  entries_have clock_keys (clock_entries clocks) = true ->
  print_clock_info get_clock_info dev false w
  = (Ok tt,
     put_cout
       (("Clocks" ++ nl) ++
        String.concat EmptyString
          (map (fun kc => format_clock_line (field_data "id" (snd kc))
                                            (field_data "freq_mhz" (snd kc)))
               (clock_entries clocks)))
       (put_call (call_get_clock_info dev) w)).
Proof.
  intros Hfetch Hfull Hwf.
  unfold print_clock_info, bind at 1, collaborator. rewrite Hfetch, Hfull.
  unfold bind. fold (clock_entries clocks). now rewrite (clock_loop _ _ _ Hwf).
Qed.

(** C2. When the fetched clock-info structure has no clock entries, the
    renderer writes exactly the header line, the line
    "  No clock information available" and an empty line, and nothing
    else, whether or not JSON was asked for. *)
Theorem print_clock_info_empty (dev : device) (is_json : bool) (clocks : ptree) (w : world) :
  get_clock_info dev = Ok clocks ->
  ptree_empty (get_child "clocks" empty_ptree clocks) = true ->
  print_clock_info get_clock_info dev is_json w
  = (Ok tt,
     put_cout ("Clocks" ++ nl ++ "  No clock information available" ++ nl ++ nl)
              (put_call (call_get_clock_info dev) w)).
Proof.
  intros Hfetch Hempty.
  unfold print_clock_info, bind, collaborator. rewrite Hfetch, Hempty.
  reflexivity.
Qed.

(** C6. In table mode, for a non-empty clock-info structure whose entries
    carry an id and a frequency, the renderer writes the header and then
    one line per entry, in order: two blanks, the id followed by blanks
    up to 23 characters, a colon and a blank, the frequency preceded by
    blanks up to 3 characters, and " MHz". *)
Theorem print_clock_info_table (dev : device) (clocks : ptree) (w : world) :
  get_clock_info dev = Ok clocks ->
  ptree_empty (get_child "clocks" empty_ptree clocks) = false ->
  entries_have clock_keys (clock_entries clocks) = true ->
  print_clock_info get_clock_info dev false w
  = (Ok tt,
     put_cout
       ("Clocks" ++ nl ++
        String.concat EmptyString
          (map (fun kc =>
                  "  " ++ field_data "id" (snd kc)
                  ++ spaces (23 - String.length (field_data "id" (snd kc)))
                  ++ ": "
                  ++ spaces (3 - String.length (field_data "freq_mhz" (snd kc)))
                  ++ field_data "freq_mhz" (snd kc)
                  ++ " MHz" ++ nl)
               (clock_entries clocks)))
       (put_call (call_get_clock_info dev) w)).
Proof.
  intros Hfetch Hfull Hwf.
  rewrite (clock_report_table dev clocks w Hfetch Hfull Hwf).
  f_equal. f_equal.
  rewrite append_assoc. do 3 f_equal.
  apply map_ext. intros kc. unfold format_clock_line, format_s.
  now rewrite !append_assoc.
Qed.

End ClockReport.

(** ** write_json and JSON documents *)

Lemma ptree_ind (P : ptree -> Prop) :
  (forall data children,
      Forall (fun kc => P (snd kc)) children -> P (Node data children)) ->
  forall pt, P pt.
Proof.
  intros Hnode. fix rec 1. intros [data children]. apply Hnode.
  induction children as [|[key child] rest IH]; constructor; [apply rec | exact IH].
Qed.

(** At the root the writer always opens an object. *)
Lemma write_json_helper_root (pt : ptree) (pretty : bool) :
  exists rest, write_json_helper pt 0 pretty = String "{"%char rest.
Proof.
  destruct pt as [data children]. cbn [write_json_helper]. simpl andb. cbv iota.
  eexists. reflexivity.
Qed.

(** ** Records written as JSON *)

Lemma escape_char_plain (c : ascii) :
  plain_char c = true -> escape_char c = String c EmptyString.
Proof.
  destruct c as [b0 b1 b2 b3 b4 b5 b6 b7].
  destruct b0, b1, b2, b3, b4, b5, b6, b7; intros H; vm_compute in H;
    try discriminate H; reflexivity.
Qed.

Lemma create_escapes_plain (s : string) : plain s = true -> create_escapes s = s.
Proof.
  induction s as [|c s IH]; [reflexivity | ].
  cbn [plain create_escapes]. intros H. apply andb_true_iff in H. destruct H as [Hc Hs].
  now rewrite (escape_char_plain c Hc), (IH Hs).
Qed.

Lemma quoted_plain (s : string) : plain s = true -> quoted s = in_quotes s.
Proof.
  intros H. unfold quoted, in_quotes. now rewrite (create_escapes_plain s H).
Qed.

(** The elements of an array or object, as the writer lays them out: each
    behind its indentation, a comma and a line feed between two of them, a
    line feed after the last. *)
Lemma json_items_concat (indent : nat) (items : list string) :
  items <> [] ->
  json_items true indent items
  = String.concat ("," ++ nl) (map (fun x => spaces (4 * (indent + 1)) ++ x) items) ++ nl.
Proof.
  induction items as [|x items IH]; [congruence | intros _].
  destruct items as [|y items].
  - cbn [json_items map String.concat]. now rewrite !append_assoc, !append_nil_r.
  - change (json_items true indent (x :: y :: items))
      with (spaces (4 * (indent + 1)) ++ x ++ "," ++ nl ++ json_items true indent (y :: items)).
    rewrite IH by discriminate.
    change (String.concat ("," ++ nl)
              (map (fun x0 => spaces (4 * (indent + 1)) ++ x0) (x :: y :: items)))
      with ((spaces (4 * (indent + 1)) ++ x) ++ ("," ++ nl)
            ++ String.concat ("," ++ nl)
                 (map (fun x0 => spaces (4 * (indent + 1)) ++ x0) (y :: items))).
    now rewrite !append_assoc.
Qed.

Lemma count_empty_keys_records {A} (f : A -> ptree) (l : list A) :
  count_empty_keys (map (fun a => (EmptyString, f a)) l) = List.length l.
Proof.
  unfold count_empty_keys. induction l as [|a l IH]; [reflexivity | ].
  cbn [map filter fst string_empty List.length]. now rewrite IH.
Qed.

Lemma count_empty_keys_fields (fields : list (string * string)) :
  forallb (fun kv => negb (string_empty (fst kv)) && plain (fst kv) && plain (snd kv))
          fields = true ->
  count_empty_keys (map (fun kv => (fst kv, Node (snd kv) [])) fields) = 0.
Proof.
  unfold count_empty_keys. induction fields as [|kv fields IH]; [reflexivity | ].
  cbn [forallb map filter fst]. intros H.
  apply andb_true_iff in H. destruct H as [Hkv Hrest].
  apply andb_true_iff in Hkv. destruct Hkv as [Hkv _].
  apply andb_true_iff in Hkv. destruct Hkv as [Hkey _].
  apply negb_true_iff in Hkey. rewrite Hkey. now apply IH.
Qed.

(** The three cases of the writer. *)
Lemma write_json_helper_value (data : string) (indent : nat) :
  write_json_helper (Node data []) (S indent) true = quoted data.
Proof.
  reflexivity.
Qed.

Lemma write_json_helper_array (data : string) (children : list (string * ptree))
      (indent : nat) :
  ptree_empty (Node data children) = false ->
  count_empty_keys children = List.length children ->
  write_json_helper (Node data children) (S indent) true
  = "[" ++ nl
    ++ json_items true (S indent)
         (map (fun kc => write_json_helper (snd kc) (S indent + 1) true) children)
    ++ spaces (4 * S indent) ++ "]".
Proof.
  intros Hfull Harray. cbn [write_json_helper]. rewrite Hfull, Harray, Nat.eqb_refl.
  reflexivity.
Qed.

Lemma write_json_helper_object (data : string) (children : list (string * ptree))
      (indent : nat) :
  ptree_empty (Node data children) = false ->
  count_empty_keys children <> List.length children ->
  write_json_helper (Node data children) indent true
  = "{" ++ nl
    ++ json_items true indent
         (map (fun kc => quoted (fst kc) ++ ":" ++ " "
                         ++ write_json_helper (snd kc) (indent + 1) true) children)
    ++ spaces (4 * indent) ++ "}".
Proof.
  intros Hfull Hobject. apply Nat.eqb_neq in Hobject.
  cbn [write_json_helper]. rewrite Hfull, Hobject, !andb_false_r. reflexivity.
Qed.

(** A record, two levels deep: an object with one line per field. *)
Lemma write_json_record (fields : list (string * string)) :
  record_ok fields = true ->
  write_json_helper (Node EmptyString (map (fun kv => (fst kv, Node (snd kv) [])) fields))
                    2 true
  = "{" ++ nl
    ++ String.concat ("," ++ nl)
         (map (fun kv => "            " ++ in_quotes (fst kv) ++ ": " ++ in_quotes (snd kv))
              fields)
    ++ nl ++ "        }".
Proof.
  unfold record_ok. intros Hok. apply andb_true_iff in Hok. destruct Hok as [Hlen Hfields].
  apply negb_true_iff in Hlen. apply Nat.eqb_neq in Hlen.
  rewrite write_json_helper_object.
  - rewrite map_map, json_items_concat
      by (destruct fields; [now contradict Hlen | discriminate]).
    rewrite map_map, !append_assoc. do 4 f_equal.
    apply map_ext_in. intros f Hin.
    rewrite forallb_forall in Hfields. specialize (Hfields f Hin).
    apply andb_true_iff in Hfields. destruct Hfields as [Hkv Hvalue].
    apply andb_true_iff in Hkv. destruct Hkv as [_ Hname].
    cbn [fst snd Nat.add]. rewrite write_json_helper_value.
    rewrite (quoted_plain _ Hname), (quoted_plain _ Hvalue).
    reflexivity.
  - unfold ptree_empty. cbn [children_of].
    destruct fields; [now contradict Hlen | reflexivity].
  - rewrite (count_empty_keys_fields fields Hfields), length_map. lia.
Qed.

Lemma write_json_helper_root_object (data : string) (children : list (string * ptree)) :
  write_json_helper (Node data children) 0 true
  = "{" ++ nl
    ++ json_items true 0
         (map (fun kc => quoted (fst kc) ++ ":" ++ " "
                         ++ write_json_helper (snd kc) 1 true) children)
    ++ "}".
Proof.
  reflexivity.
Qed.

Lemma verify_json_report_tree (key : string) (records : list (list (string * string))) :
  verify_json (report_tree key records) 0 = true.
Proof.
  unfold report_tree. cbn [verify_json string_empty negb andb forallb snd Nat.eqb Nat.add].
  rewrite andb_true_r. apply forallb_forall. intros entry Hentry.
  apply in_map_iff in Hentry. destruct Hentry as [fields [<- _]].
  cbn [snd verify_json string_empty negb andb Nat.eqb Nat.add].
  apply forallb_forall. intros leaf Hleaf.
  apply in_map_iff in Hleaf. destruct Hleaf as [kv [<- _]].
  cbn [snd verify_json]. unfold ptree_empty. cbn [children_of Nat.eqb Nat.add forallb].
  now rewrite !andb_false_r.
Qed.

(** A report, from the root: one member, an array with one object per
    record. *)
Lemma write_json_report_tree (key : string) (records : list (list (string * string))) :
  plain key = true ->
  records <> [] ->
  forallb record_ok records = true ->
  write_json (report_tree key records) true
  = Ok ("{" ++ nl ++ "    " ++ in_quotes key ++ ": [" ++ nl
        ++ String.concat ("," ++ nl)
             (map (fun fields =>
                     "        {" ++ nl
                     ++ String.concat ("," ++ nl)
                          (map (fun kv => "            " ++ in_quotes (fst kv) ++ ": "
                                          ++ in_quotes (snd kv)) fields)
                     ++ nl ++ "        }")
                  records)
        ++ nl ++ "    ]" ++ nl ++ "}" ++ nl).
Proof.
  intros Hkey Hsome Hok.
  unfold write_json. rewrite verify_json_report_tree. f_equal.
  unfold report_tree. rewrite write_json_helper_root_object.
  cbn [map fst snd json_items]. rewrite (quoted_plain _ Hkey).
  rewrite write_json_helper_array;
    [ | unfold ptree_empty; cbn [children_of];
        destruct records; [congruence | reflexivity]
      | rewrite count_empty_keys_records, length_map; reflexivity ].
  rewrite map_map, json_items_concat by (destruct records; [congruence | discriminate]).
  rewrite map_map. cbn [snd Nat.add].
  assert (Hrecords :
            map (fun fields =>
                   spaces (4 * 2)
                   ++ write_json_helper
                        (Node EmptyString (map (fun kv => (fst kv, Node (snd kv) [])) fields))
                        2 true) records
            = map (fun fields =>
                     "        {" ++ nl
                     ++ String.concat ("," ++ nl)
                          (map (fun kv => "            " ++ in_quotes (fst kv) ++ ": "
                                          ++ in_quotes (snd kv)) fields)
                     ++ nl ++ "        }") records).
  { apply map_ext_in. intros fields Hin.
    rewrite forallb_forall in Hok. now rewrite (write_json_record fields (Hok fields Hin)). }
  rewrite Hrecords. unfold in_quotes. cbn [spaces Nat.mul Nat.add append].
  repeat (progress (rewrite ?append_assoc; cbn [append])).
  reflexivity.
Qed.

Section ClockReportJson.

Variable get_clock_info : device -> result ptree.


(** C1, amended. Once the clock-info structure is fetched (its entries
    carrying an id and a frequency), what the renderer writes begins with
    the "Clocks" header line exactly when the data is empty or the table
    is asked for.  With JSON asked for and data present the header is not
    written: standard output receives the text of the JSON writer and
    nothing else, or nothing at all when the writer refuses the structure,
    in which case the renderer throws the writer's error. *)
Theorem print_clock_info_header (dev : device) (is_json : bool) (clocks : ptree)
        (w : world) :
  get_clock_info dev = Ok clocks ->
  entries_have clock_keys (clock_entries clocks) = true ->
  exists text,
    cout (snd (print_clock_info get_clock_info dev is_json w)) = cout w ++ text
    /\ starts_with ("Clocks" ++ nl) text
       = ptree_empty (get_child "clocks" empty_ptree clocks) || negb is_json
    /\ (ptree_empty (get_child "clocks" empty_ptree clocks) = false ->
        is_json = true ->
        match write_json clocks true with
        | Ok document =>
            text = document
            /\ fst (print_clock_info get_clock_info dev is_json w) = Ok tt
        | Throw e =>
            text = EmptyString
            /\ fst (print_clock_info get_clock_info dev is_json w) = Throw e
        end).
Proof.
  intros Hfetch Hwf.
  destruct (ptree_empty (get_child "clocks" empty_ptree clocks)) eqn:Hempty.
  - unfold print_clock_info, bind, collaborator. rewrite Hfetch, Hempty.
    eexists. split; [reflexivity | split; [reflexivity | discriminate]].
  - destruct is_json.
    + assert (Hrun : print_clock_info get_clock_info dev true w
                     = match write_json clocks true with
                       | Ok document =>
                           (Ok tt, put_cout document (put_call (call_get_clock_info dev) w))
                       | Throw e => (Throw e, put_call (call_get_clock_info dev) w)
                       end).
      { unfold print_clock_info, bind, collaborator, lift. rewrite Hfetch, Hempty.
        destruct (write_json clocks true); reflexivity. }
      rewrite Hrun.
      destruct (write_json clocks true) as [document|e] eqn:Hwrite.
      * exists document. split; [reflexivity | split; [ | intros _ _; split; reflexivity]].
        unfold write_json in Hwrite.
        destruct (verify_json clocks 0); [ | discriminate Hwrite].
        destruct (write_json_helper_root clocks true) as [rest Hrest].
        rewrite Hrest in Hwrite. injection Hwrite as <-. reflexivity.
      * exists EmptyString. split; [ | split; [reflexivity | intros _ _; split; reflexivity]].
        simpl. now rewrite append_nil_r.
    + rewrite (clock_report_table _ _ _ w Hfetch Hempty Hwf).
      eexists. split; [reflexivity | split; [reflexivity | discriminate]].
Qed.

End ClockReportJson.


(** ** The preemption telemetry report *)

Lemma table_add_entries (rowf : string * ptree -> list string)
      (entries : list (string * ptree)) (tb : Table2D.t) :
  fold_left (fun tb kc => Table2D.addEntry (rowf kc) tb) entries tb
  = {| Table2D.m_headers := Table2D.m_headers tb;
       Table2D.m_entries := (Table2D.m_entries tb ++ map rowf entries)%list |}.
Proof.
  revert tb. induction entries as [|kc entries IH]; intros tb; simpl.
  - rewrite app_nil_r. now destruct tb.
  - rewrite IH. simpl. now rewrite <- app_assoc.
Qed.

Lemma table_lines_length (prefix : string) (tb : Table2D.t) :
  List.length (Table2D.lines prefix tb) = 1 + List.length (Table2D.m_entries tb).
Proof.
  unfold Table2D.lines, Table2D.rows. now rewrite length_map.
Qed.

Lemma table_lines_margin (prefix : string) (tb : Table2D.t) :
  Forall (fun l => starts_with prefix l = true) (Table2D.lines prefix tb).
Proof.
  unfold Table2D.lines. apply Forall_forall. intros l Hin.
  apply in_map_iff in Hin. destruct Hin as [row [Hl _]]. subst l.
  apply starts_with_append.
Qed.

Lemma rtos_data_fields (user_task : ptree) (w : world) :
  forallb (fun key => has_field key user_task) telemetry_keys = true ->
  rtos_data user_task w
  = (Ok (map (fun key => field_data key user_task) telemetry_keys), w).
Proof.
  unfold telemetry_keys. cbn [forallb map]. unfold has_field, field_data.
  intros Hwf. repeat (apply andb_true_iff in Hwf; destruct Hwf as [? Hwf]).
  unfold rtos_data, bind, lift, ret, get_string.
  repeat match goal with
         | H : match find_child ?k ?cs with _ => _ end = true |- _ =>
             destruct (find_child k cs); [clear H | discriminate H]
         end.
  reflexivity.
Qed.

Section TelemetryReport.

Variable preemption_telemetry_info : device -> result ptree.

(** C7. In table mode, for a telemetry structure with N hardware contexts
    (each carrying its six counters), the renderer writes its title and
    then a table of six columns headed User Task, Ctx ID, Set Hints,
    Unset Hints, Checkpoint Events and Frame Boundary Events, in that
    order, with one row per context in the order of the fetched
    collection: N + 1 lines, each behind a margin of two blanks. *)
Theorem print_preemption_telemetry_table (dev : device) (telemetry_pt : ptree)
        (w : world) :
  preemption_telemetry_info dev = Ok telemetry_pt ->
  ptree_empty (get_child "telemetry" empty_ptree telemetry_pt) = false ->
  entries_have telemetry_keys (telemetry_contexts telemetry_pt) = true ->
  exists tb,
    print_preemption_telemetry preemption_telemetry_info dev false w
    = (Ok tt,
       put_cout ("Premption Telemetry Data" ++ nl ++ Table2D.toString "  " tb ++ nl)
                (put_call (call_preemption_telemetry_info dev) w))
    /\ map Table2D.header (Table2D.m_headers tb)
       = ["User Task"; "Ctx ID"; "Set Hints"; "Unset Hints";
          "Checkpoint Events"; "Frame Boundary Events"]
    /\ Forall (fun h => Table2D.justification h = Table2D.left) (Table2D.m_headers tb)
    /\ Table2D.m_entries tb
       = map (fun kc =>
                [ field_data "user_task" (snd kc);
                  field_data "slot_index" (snd kc);
                  field_data "preemption_flag_set" (snd kc);
                  field_data "preemption_flag_unset" (snd kc);
                  field_data "preemption_checkpoint_event" (snd kc);
                  field_data "preemption_frame_boundary_events" (snd kc) ])
             (telemetry_contexts telemetry_pt)
    /\ List.length (Table2D.lines "  " tb)
       = 1 + List.length (telemetry_contexts telemetry_pt)
    /\ Forall (fun l => starts_with "  " l = true) (Table2D.lines "  " tb).
Proof.
  intros Hfetch Hfull Hwf.
  set (rowf := fun kc : string * ptree =>
                 map (fun key => field_data key (snd kc)) telemetry_keys).
  exists {| Table2D.m_headers := preempt_headers;
            Table2D.m_entries := map rowf (telemetry_contexts telemetry_pt) |}.
  split; [ | split; [reflexivity | split; [ | split; [reflexivity | split]]]].
  - unfold print_preemption_telemetry, bind at 1, collaborator.
    rewrite Hfetch, Hfull. unfold bind at 1.
    fold (telemetry_contexts telemetry_pt).
    rewrite (for_each_acc_pure (fun kc tb => Table2D.addEntry (rowf kc) tb)).
    + rewrite table_add_entries. unfold write_cout, Table2D.make. cbn [Table2D.m_headers
        Table2D.m_entries app]. now rewrite !append_assoc.
    + intros kc Hin acc w'. unfold entries_have in Hwf.
      rewrite forallb_forall in Hwf. specialize (Hwf kc Hin).
      unfold bind. now rewrite (rtos_data_fields _ _ Hwf).
  - repeat constructor.
  - rewrite table_lines_length. cbn [Table2D.m_entries]. now rewrite length_map.
  - apply table_lines_margin.
Qed.

End TelemetryReport.

(** ** Running [execute] step by step *)

Lemma bind_ok {A B} (m : M A) (f : A -> M B) (w w' : world) (a : A) :
  m w = (Ok a, w') -> bind m f w = f a w'.
Proof.
  intros H. unfold bind. now rewrite H.
Qed.

Lemma bind_throw {A B} (m : M A) (f : A -> M B) (w w' : world) (e : exn) :
  m w = (Throw e, w') -> bind m f w = (Throw e, w').
Proof.
  intros H. unfold bind. now rewrite H.
Qed.

Lemma try_catch_ok {A} (body : M A) (catches : exn -> bool) (handler : exn -> M A)
      (w w' : world) (a : A) :
  body w = (Ok a, w') -> try_catch body catches handler w = (Ok a, w').
Proof.
  intros H. unfold try_catch. now rewrite H.
Qed.

Lemma calls_log_options (_options : SubCmdOptions) (w : world) :
  calls (log_options _options w) = calls w.
Proof.
  unfold log_options.
  set (w0 := put_verbose "Option(s):" (put_verbose "SubCommand option: report" w)).
  change (calls w) with (calls w0). generalize w0. clear w w0.
  induction _options as [|x l IH]; intros w; simpl; [reflexivity | ].
  now rewrite IH.
Qed.

Lemma existsb_help (_options : SubCmdOptions) :
  In "--help" _options -> existsb (String.eqb "--help") _options = true.
Proof.
  intros Hin. apply existsb_exists. exists "--help". split; [exact Hin | ].
  apply String.eqb_refl.
Qed.

(** ** Which collaborators a computation calls *)

Section MakesCalls.

Variable P : call -> Prop.

Lemma makes_calls_silent {A} (m : M A) :
  (forall w, calls (snd (m w)) = calls w) -> makes_calls P m.
Proof.
  intros H w. exists []. rewrite H, app_nil_r. split; [reflexivity | constructor].
Qed.


Lemma makes_calls_bind {A B} (m : M A) (f : A -> M B) :
  makes_calls P m -> (forall a, makes_calls P (f a)) -> makes_calls P (bind m f).
Proof.
  intros Hm Hf w. unfold bind. destruct (Hm w) as [t1 [E1 F1]].
  destruct (m w) as [[a|e] w']; simpl in E1.
  - destruct (Hf a w') as [t2 [E2 F2]]. exists (t1 ++ t2)%list.
    rewrite E2, E1, app_assoc. split; [reflexivity | now apply Forall_app].
  - exists t1. now split.
Qed.


Lemma makes_calls_for_each_acc {A S} (l : list A) (body : A -> S -> M S) :
  (forall x acc, makes_calls P (body x acc)) ->
  forall acc, makes_calls P (for_each_acc l acc body).
Proof.
  intros Hbody. induction l as [|x l IH]; intros acc; simpl.
  - now apply makes_calls_silent.
  - apply makes_calls_bind; [apply Hbody | exact IH].
Qed.

Lemma makes_calls_lift {A} (r : result A) : makes_calls P (lift r).
Proof. now apply makes_calls_silent. Qed.

Lemma makes_calls_ret {A} (a : A) : makes_calls P (ret a).
Proof. now apply makes_calls_silent. Qed.

Lemma makes_calls_throw {A} (e : exn) : makes_calls P (@throw A e).
Proof. now apply makes_calls_silent. Qed.

Lemma makes_calls_write_cout (s : string) : makes_calls P (write_cout s).
Proof. now apply makes_calls_silent. Qed.

Lemma makes_calls_write_cerr (s : string) : makes_calls P (write_cerr s).
Proof. now apply makes_calls_silent. Qed.

Lemma makes_calls_rtos_data (user_task : ptree) : makes_calls P (rtos_data user_task).
Proof.
  unfold rtos_data.
  repeat (apply makes_calls_bind; [apply makes_calls_lift | intros ?]).
  apply makes_calls_ret.
Qed.

End MakesCalls.

Lemma no_calls {A} (m : M A) (w : world) :
  makes_calls (fun _ => False) m -> calls (snd (m w)) = calls w.
Proof.
  intros H. destruct (H w) as [tail [E F]].
  destruct tail as [|c tail]; [now rewrite E, app_nil_r | ].
  inversion F as [|? ? Hc]. contradiction.
Qed.

Ltac silent_steps :=
  repeat first
    [ apply makes_calls_write_cout
    | apply makes_calls_write_cerr
    | apply makes_calls_lift
    | apply makes_calls_ret
    | apply makes_calls_throw
    | apply makes_calls_rtos_data
    | apply makes_calls_for_each_acc; intros ? ?
    | apply makes_calls_bind; [ | intros ? ] ].

(** Each renderer calls its own fetch, once, and nothing else. *)
Lemma print_clock_info_calls (get_clock_info : device -> result ptree)
      (dev : device) (is_json : bool) (w : world) :
  calls (snd (print_clock_info get_clock_info dev is_json w))
  = (calls w ++ [call_get_clock_info dev])%list.
Proof.
  unfold print_clock_info, bind at 1, collaborator.
  destruct (get_clock_info dev) as [clocks|e]; [ | reflexivity].
  change (calls w ++ [call_get_clock_info dev])%list
    with (calls (put_call (call_get_clock_info dev) w)).
  cbv zeta.
  match goal with |- calls (snd (?m ?w0)) = _ => apply (no_calls m w0) end.
  destruct (ptree_empty _); [silent_steps | ].
  destruct is_json; silent_steps.
Qed.

Lemma print_preemption_telemetry_calls
      (preemption_telemetry_info : device -> result ptree)
      (dev : device) (is_json : bool) (w : world) :
  calls (snd (print_preemption_telemetry preemption_telemetry_info dev is_json w))
  = (calls w ++ [call_preemption_telemetry_info dev])%list.
Proof.
  unfold print_preemption_telemetry, bind at 1, collaborator.
  destruct (preemption_telemetry_info dev) as [telemetry_pt|e]; [ | reflexivity].
  change (calls w ++ [call_preemption_telemetry_info dev])%list
    with (calls (put_call (call_preemption_telemetry_info dev) w)).
  cbv zeta.
  match goal with |- calls (snd (?m ?w0)) = _ => apply (no_calls m w0) end.
  destruct (ptree_empty _); [silent_steps | ].
  destruct is_json; silent_steps.
Qed.

Lemma render_calls (get_clock_info preemption_telemetry_info : device -> result ptree)
      (r : report) (dev : device) (is_json : bool) (w : world) :
  calls (snd (render get_clock_info preemption_telemetry_info r dev is_json w))
  = (calls w ++ [renderer_call r dev])%list.
Proof.
  destruct r; [apply print_clock_info_calls | apply print_preemption_telemetry_calls].
Qed.

(** A name stands for a report exactly when [boost::iequals] matches it with
    the lower-case name of that report. *)
Lemma report_named_iequals (name : string) :
  report_named name
  = if iequals name "clocks" then Some report_clocks
    else if iequals name "preemption" then Some report_preemption
    else None.
Proof.
  assert (Hiff : forall canonical,
             to_lower_copy canonical = canonical ->
             iequals name canonical = String.eqb (to_lower_copy name) canonical).
  { intros canonical Hc. apply eq_true_iff_eq.
    rewrite iequals_to_lower, String.eqb_eq, Hc. reflexivity. }
  unfold report_named.
  now rewrite <- (Hiff "clocks" eq_refl), <- (Hiff "preemption" eq_refl).
Qed.

Example report_named_casings :
  report_named "CLOCKS" = Some report_clocks
  /\ report_named "Clocks" = Some report_clocks
  /\ report_named "Preemption" = Some report_preemption
  /\ report_named "preemption" = Some report_preemption
  /\ report_named "clock" = None.
Proof.
  repeat split; reflexivity.
Qed.

Lemma report_named_not_empty (name : string) (r : report) :
  report_named name = Some r -> string_empty name = false.
Proof.
  destruct name; [discriminate | reflexivity].
Qed.

(** ** The command *)

Section Command.

Variable process_arguments : SubCmdOptions -> result OO_Reports.
Variable get_device : string -> bool -> result device.
Variable get_clock_info : device -> result ptree.
Variable preemption_telemetry_info : device -> result ptree.

Abbreviation run := (execute process_arguments get_device get_clock_info
                         preemption_telemetry_info).

(** The three logging steps at the top of [execute]. *)
Ltac log_steps :=
  unfold execute;
  erewrite bind_ok by reflexivity;
  erewrite bind_ok by reflexivity;
  erewrite bind_ok by apply for_each_verbose;
  match goal with
  | |- context [fold_left ?f ?l (put_verbose ?a (put_verbose ?b ?w))] =>
      change (fold_left f l (put_verbose a (put_verbose b w))) with (log_options l w)
  end.

(** The parsing step, given what the parser returns. *)
Ltac parse_step Hnohelp Hparse :=
  log_steps; rewrite Hnohelp;
  erewrite bind_ok by (unfold collaborator; rewrite Hparse; reflexivity).

(** C9. When [--help] is among the options, whatever else is there, the
    command logs its options, prints the usage and returns normally: no
    parsing, no device lookup, no report, nothing on standard output or
    standard error from this file. *)
Theorem execute_help (_options : SubCmdOptions) (w : world) :
  In "--help" _options ->
  run _options w = (Ok tt, put_call call_printHelp (log_options _options w)).
Proof.
  intros Hhelp. log_steps. rewrite (existsb_help _ Hhelp). reflexivity.
Qed.

(** C8. When the options hold no [--help] and parsing leaves the help flag
    unset and the mode empty (absent, or given empty), the command writes
    the missing-argument error on standard error, prints the usage and
    throws the cancellation error; the only collaborators called are the
    parser and the usage printer, so no device is looked up. *)
Theorem execute_mode_missing (_options : SubCmdOptions) (this : OO_Reports) (w : world) :
  existsb (String.eqb "--help") _options = false ->
  process_arguments _options = Ok this ->
  m_help this = false ->
  m_action this = EmptyString ->
  run _options w
  = (Throw (xrt_core_error_code operation_canceled),
     put_call call_printHelp
       (put_cerr ("ERROR: the required argument for option '--report' is missing" ++ nl)
          (put_call (call_process_arguments _options) (log_options _options w))))
  /\ calls (snd (run _options w))
     = (calls w ++ [call_process_arguments _options; call_printHelp])%list.
Proof.
  intros Hnohelp Hparse Hhelp Hmode.
  assert (Hrun : run _options w
                 = (Throw (xrt_core_error_code operation_canceled),
                    put_call call_printHelp
                      (put_cerr ("ERROR: the required argument for option '--report' is missing" ++ nl)
                         (put_call (call_process_arguments _options)
                                   (log_options _options w))))).
  { parse_step Hnohelp Hparse. rewrite Hhelp, Hmode. reflexivity. }
  split; [exact Hrun | ].
  rewrite Hrun. cbn [snd put_call put_cerr calls].
  now rewrite calls_log_options, <- app_assoc.
Qed.

(** The device lookup step, given a device is found. *)
Ltac lookup_step Hdev :=
  erewrite bind_ok
    by (apply try_catch_ok; cbv zeta; unfold collaborator; try rewrite Hdev; reflexivity).

(** C4. Once the options are parsed without a help request and the device
    is resolved, a mode that is "clocks" or "preemption" in any letter case
    runs the renderer of that report, and only that one: the command is the
    renderer under the error handler of the dispatch, and after the device
    lookup the only collaborators called are the fetch of that report and
    possibly the usage printer. *)
Theorem execute_dispatch (_options : SubCmdOptions) (this : OO_Reports) (dev : device)
        (r : report) (w : world) :
  existsb (String.eqb "--help") _options = false ->
  process_arguments _options = Ok this ->
  m_help this = false ->
  get_device (to_lower_copy (m_device this)) true = Ok dev ->
  report_named (m_action this) = Some r ->
  run _options w
  = try_catch
      (render get_clock_info preemption_telemetry_info r dev (m_json this))
      is_xrt_core_error
      (fun e =>
         write_cerr (nl ++ "ERROR: " ++ what e ++ nl) ;;
         printHelp ;;
         throw (xrt_core_error_code operation_canceled))
      (put_call (call_get_device (to_lower_copy (m_device this)) true)
         (put_call (call_process_arguments _options) (log_options _options w)))
  /\ exists tail,
      calls (snd (run _options w))
      = (calls w ++ [call_process_arguments _options;
                     call_get_device (to_lower_copy (m_device this)) true;
                     renderer_call r dev] ++ tail)%list
      /\ Forall (fun c => c = call_printHelp) tail.
Proof.
  intros Hnohelp Hparse Hhelp Hdev Hreport.
  match goal with |- ?lhs = ?rhs /\ _ => assert (Hrun : lhs = rhs) end.
  { parse_step Hnohelp Hparse.
    rewrite Hhelp, (report_named_not_empty _ _ Hreport).
    lookup_step Hdev.
    rewrite report_named_iequals in Hreport.
    destruct (iequals (m_action this) "clocks").
    - injection Hreport as <-. reflexivity.
    - destruct (iequals (m_action this) "preemption"); [ | discriminate].
      injection Hreport as <-. reflexivity. }
  split; [exact Hrun | ].
  rewrite Hrun. unfold try_catch.
  pose proof (render_calls get_clock_info preemption_telemetry_info r dev (m_json this)
                (put_call (call_get_device (to_lower_copy (m_device this)) true)
                   (put_call (call_process_arguments _options)
                             (log_options _options w)))) as Hcalls.
  cbn [put_call calls] in Hcalls. rewrite calls_log_options in Hcalls.
  destruct (render _ _ r dev (m_json this) _) as [[[]|e] w'];
    cbn [snd] in *.
  - exists []. rewrite Hcalls, <- !app_assoc. split; [reflexivity | constructor].
  - destruct (is_xrt_core_error e); cbn [snd].
    + exists [call_printHelp]. cbn [bind write_cerr printHelp collaborator throw snd
        put_call put_cerr calls]. rewrite Hcalls, <- !app_assoc.
      split; [reflexivity | now repeat constructor].
    + exists []. rewrite Hcalls, <- !app_assoc. split; [reflexivity | constructor].
Qed.

(** C3, amended. Once the options are parsed without a help request and the
    device is resolved, a non-empty mode that is neither "clocks" nor
    "preemption" in any letter case makes the command write the single
    diagnostic "ERROR: Invalid report value: '<mode>'" on standard error,
    print the usage and throw the cancellation error; no renderer runs:
    the collaborators called are the parser, the device lookup and the
    usage printer. *)
Theorem execute_invalid_report (_options : SubCmdOptions) (this : OO_Reports)
        (dev : device) (w : world) :
  existsb (String.eqb "--help") _options = false ->
  process_arguments _options = Ok this ->
  m_help this = false ->
  string_empty (m_action this) = false ->
  get_device (to_lower_copy (m_device this)) true = Ok dev ->
  report_named (m_action this) = None ->
  run _options w
  = (Throw (xrt_core_error_code operation_canceled),
     put_call call_printHelp
       (put_cerr (nl ++ "ERROR: Invalid report value: '" ++ m_action this ++ "'" ++ nl ++ nl)
          (put_call (call_get_device (to_lower_copy (m_device this)) true)
             (put_call (call_process_arguments _options) (log_options _options w)))))
  /\ calls (snd (run _options w))
     = (calls w ++ [call_process_arguments _options;
                    call_get_device (to_lower_copy (m_device this)) true;
                    call_printHelp])%list.
Proof.
  intros Hnohelp Hparse Hhelp Hmode Hdev Hreport.
  match goal with |- ?lhs = ?rhs /\ _ => assert (Hrun : lhs = rhs) end.
  { parse_step Hnohelp Hparse. rewrite Hhelp, Hmode.
    lookup_step Hdev.
    rewrite report_named_iequals in Hreport.
    destruct (iequals (m_action this) "clocks"); [discriminate | ].
    destruct (iequals (m_action this) "preemption"); [discriminate | ].
    unfold try_catch, throw. cbn [is_xrt_core_error what].
    cbn [bind write_cerr printHelp collaborator throw].
    now rewrite !append_assoc. }
  split; [exact Hrun | ].
  rewrite Hrun. cbn [snd put_call put_cerr calls].
  now rewrite calls_log_options, <- !app_assoc.
Qed.




End Command.

(** ** The statements on the lab machine *)

(** C1, as stated, fails: with JSON asked for and two clocks on the device,
    standard output does not begin with the "Clocks" header line; it begins
    with the brace that opens the document. *)
Lemma print_clock_info_json_no_header :
  ptree_empty (get_child "clocks" empty_ptree lab_clocks) = false
  /\ starts_with ("Clocks" ++ nl)
       (cout (snd (print_clock_info lab_get_clock_info (Device 0) true initial_world)))
     = false
  /\ starts_with "{"
       (cout (snd (print_clock_info lab_get_clock_info (Device 0) true initial_world)))
     = true.
Proof.
  repeat split; reflexivity.
Qed.

(** C3, as stated, fails: the empty mode is none of the two reports, and so
    is "bogus", yet with an empty mode, or with a device that is not found,
    no "Invalid report value" diagnostic is written: the command stops
    earlier, on the missing argument or on the failed lookup. *)
Lemma execute_no_invalid_report_diagnostic :
  (report_named EmptyString = None
   /\ cerr (snd (lab_execute [] initial_world))
      = "ERROR: the required argument for option '--report' is missing" ++ nl
   /\ contains "Invalid report value" (cerr (snd (lab_execute [] initial_world))) = false)
  /\ (report_named "bogus" = None
      /\ cerr (snd (lab_execute ["bogus"; "-d"; "0000:FF:00.0"] initial_world))
         = "ERROR: Specified device BDF '0000:ff:00.0' not found" ++ nl
      /\ contains "Invalid report value"
           (cerr (snd (lab_execute ["bogus"; "-d"; "0000:FF:00.0"] initial_world))) = false).
Proof.
  repeat split; reflexivity.
Qed.

(** The header theorem at the table of the first device. *)
Lemma print_clock_info_header_witness :
  lab_get_clock_info (Device 0) = Ok lab_clocks
  /\ entries_have clock_keys (clock_entries lab_clocks) = true
  /\ exists text,
      cout (snd (print_clock_info lab_get_clock_info (Device 0) false initial_world))
      = cout initial_world ++ text
      /\ starts_with ("Clocks" ++ nl) text
         = ptree_empty (get_child "clocks" empty_ptree lab_clocks) || negb false.
Proof.
  split; [reflexivity | split; [reflexivity | ]].
  destruct (print_clock_info_header lab_get_clock_info (Device 0) false lab_clocks
              initial_world eq_refl eq_refl) as [text [Hout [Hhead _]]].
  exists text. split; [exact Hout | exact Hhead].
Defined.

(** The empty report at the second device, with JSON asked for. *)
Lemma print_clock_info_empty_witness :
  lab_get_clock_info (Device 1) = Ok empty_ptree
  /\ ptree_empty (get_child "clocks" empty_ptree empty_ptree) = true
  /\ print_clock_info lab_get_clock_info (Device 1) true initial_world
     = (Ok tt,
        put_cout ("Clocks" ++ nl ++ "  No clock information available" ++ nl ++ nl)
                 (put_call (call_get_clock_info (Device 1)) initial_world)).
Proof.
  split; [reflexivity | split; [reflexivity | ]].
  apply (print_clock_info_empty lab_get_clock_info (Device 1) true empty_ptree
                                initial_world); reflexivity.
Defined.


(** The clock table of the first device. *)
Lemma print_clock_info_table_witness :
  lab_get_clock_info (Device 0) = Ok lab_clocks
  /\ ptree_empty (get_child "clocks" empty_ptree lab_clocks) = false
  /\ entries_have clock_keys (clock_entries lab_clocks) = true
  /\ print_clock_info lab_get_clock_info (Device 0) false initial_world
     = (Ok tt,
        put_cout
          ("Clocks" ++ nl ++
           String.concat EmptyString
             (map (fun kc =>
                     "  " ++ field_data "id" (snd kc)
                     ++ spaces (23 - String.length (field_data "id" (snd kc)))
                     ++ ": "
                     ++ spaces (3 - String.length (field_data "freq_mhz" (snd kc)))
                     ++ field_data "freq_mhz" (snd kc)
                     ++ " MHz" ++ nl)
                  (clock_entries lab_clocks)))
          (put_call (call_get_clock_info (Device 0)) initial_world)).
Proof.
  split; [reflexivity | split; [reflexivity | split; [reflexivity | ]]].
  apply (print_clock_info_table lab_get_clock_info (Device 0) lab_clocks initial_world);
    reflexivity.
Defined.

(** The telemetry table of the first device: two contexts, three lines. *)
Lemma print_preemption_telemetry_table_witness :
  lab_preemption_telemetry_info (Device 0) = Ok lab_telemetry
  /\ ptree_empty (get_child "telemetry" empty_ptree lab_telemetry) = false
  /\ entries_have telemetry_keys (telemetry_contexts lab_telemetry) = true
  /\ exists tb,
      print_preemption_telemetry lab_preemption_telemetry_info (Device 0) false initial_world
      = (Ok tt,
         put_cout ("Premption Telemetry Data" ++ nl ++ Table2D.toString "  " tb ++ nl)
                  (put_call (call_preemption_telemetry_info (Device 0)) initial_world))
      /\ List.length (Table2D.lines "  " tb) = 3.
Proof.
  split; [reflexivity | split; [reflexivity | split; [reflexivity | ]]].
  destruct (print_preemption_telemetry_table lab_preemption_telemetry_info (Device 0)
              lab_telemetry initial_world eq_refl eq_refl eq_refl)
    as [tb [Hrun [_ [_ [_ [Hlines _]]]]]].
  exists tb. split; [exact Hrun | exact Hlines].
Defined.

(** Help next to a mode and a switch. *)
Lemma execute_help_witness :
  In "--help" ["clocks"; "--json"; "--help"]
  /\ lab_execute ["clocks"; "--json"; "--help"] initial_world
     = (Ok tt,
        put_call call_printHelp (log_options ["clocks"; "--json"; "--help"] initial_world)).
Proof.
  assert (Hin : In "--help" ["clocks"; "--json"; "--help"]) by (simpl; tauto).
  split; [exact Hin | ].
  apply (execute_help cli_process_arguments lab_get_device lab_get_clock_info
                      lab_preemption_telemetry_info _ initial_world Hin).
Defined.

(** No mode at all, only a switch. *)
Lemma execute_mode_missing_witness :
  existsb (String.eqb "--help") ["--json"] = false
  /\ cli_process_arguments ["--json"] = Ok (parsed EmptyString EmptyString false true)
  /\ calls (snd (lab_execute ["--json"] initial_world))
     = [call_process_arguments ["--json"]; call_printHelp].
Proof.
  split; [reflexivity | split; [reflexivity | ]].
  apply (execute_mode_missing cli_process_arguments lab_get_device lab_get_clock_info
           lab_preemption_telemetry_info ["--json"]
           (parsed EmptyString EmptyString false true) initial_world);
    reflexivity.
Defined.

(** An upper-case mode reaches the clock renderer. *)
Lemma execute_dispatch_witness :
  cli_process_arguments ["CLOCKS"] = Ok (parsed EmptyString "CLOCKS" false false)
  /\ lab_get_device EmptyString true = Ok (Device 0)
  /\ report_named "CLOCKS" = Some report_clocks
  /\ exists tail,
      calls (snd (lab_execute ["CLOCKS"] initial_world))
      = ([call_process_arguments ["CLOCKS"]; call_get_device EmptyString true;
          call_get_clock_info (Device 0)] ++ tail)%list
      /\ Forall (fun c => c = call_printHelp) tail.
Proof.
  split; [reflexivity | split; [reflexivity | split; [reflexivity | ]]].
  apply (execute_dispatch cli_process_arguments lab_get_device lab_get_clock_info
           lab_preemption_telemetry_info ["CLOCKS"]
           (parsed EmptyString "CLOCKS" false false) (Device 0) report_clocks
           initial_world); reflexivity.
Defined.

(** A mode that names no report. *)
Lemma execute_invalid_report_witness :
  cli_process_arguments ["bogus"] = Ok (parsed EmptyString "bogus" false false)
  /\ report_named "bogus" = None
  /\ cerr (snd (lab_execute ["bogus"] initial_world))
     = nl ++ "ERROR: Invalid report value: 'bogus'" ++ nl ++ nl
  /\ calls (snd (lab_execute ["bogus"] initial_world))
     = [call_process_arguments ["bogus"]; call_get_device EmptyString true; call_printHelp].
Proof.
  split; [reflexivity | split; [reflexivity | ]].
  destruct (execute_invalid_report cli_process_arguments lab_get_device lab_get_clock_info
              lab_preemption_telemetry_info ["bogus"]
              (parsed EmptyString "bogus" false false) (Device 0) initial_world
              eq_refl eq_refl eq_refl eq_refl eq_refl eq_refl) as [Hrun Hcalls].
  split; [ | exact Hcalls].
  unfold lab_execute. rewrite Hrun. reflexivity.
Defined.


(** ** Further properties of the renderers *)

Lemma put_cout_nil (w : world) : put_cout EmptyString w = w.
Proof.
  destruct w. unfold put_cout. cbn [cout cerr verbose_log calls].
  now rewrite append_nil_r.
Qed.

Lemma lookups_leave_world (pt : ptree) (key1 key2 : string) (ss : string)
      (line : string -> string -> string) (w : world) :
  snd ((a <- lift (get_string key1 pt) ;;
        b <- lift (get_string key2 pt) ;;
        ret (ss ++ line a b)) w) = w.
Proof.
  unfold bind, lift, ret.
  destruct (get_string key1 pt); [ | reflexivity].
  destruct (get_string key2 pt); reflexivity.
Qed.

Lemma rtos_data_world (user_task : ptree) (w : world) :
  snd (rtos_data user_task w) = w.
Proof.
  unfold rtos_data, bind, lift, ret.
  repeat match goal with
         | |- context [get_string ?k ?pt] => destruct (get_string k pt); [ | reflexivity]
         end.
  reflexivity.
Qed.

Ltac ends_either_way :=
  let Hrun := fresh "Hrun" in
  intros Hrun; injection Hrun as <- <-;
  first [ left; eexists; reflexivity | right; eexists; reflexivity ].

(** A renderer ends in one of two ways: it returns, having appended some
    text to standard output, or it throws, having written nothing. *)
Lemma print_clock_info_run (get_clock_info : device -> result ptree)
      (dev : device) (is_json : bool) (w : world) :
  (exists out, print_clock_info get_clock_info dev is_json w
               = (Ok tt, put_cout out (put_call (call_get_clock_info dev) w)))
  \/ (exists e, print_clock_info get_clock_info dev is_json w
                = (Throw e, put_call (call_get_clock_info dev) w)).
Proof.
  destruct (print_clock_info get_clock_info dev is_json w) as [res w'] eqn:Hrun.
  revert Hrun. unfold print_clock_info, bind at 1, collaborator.
  destruct (get_clock_info dev) as [clocks|e]; [ | ends_either_way].
  cbv zeta. destruct (ptree_empty _); [ends_either_way | ].
  destruct is_json.
  - unfold bind, lift. destruct (write_json clocks true); ends_either_way.
  - unfold bind at 1.
    match goal with
    | |- context [for_each_acc ?l ?acc ?body ?w0] =>
        pose proof (for_each_acc_world body l
                      (fun kc ss w1 =>
                         lookups_leave_world (snd kc) "freq_mhz" "id" ss
                           (fun freq_mhz id => format_clock_line id freq_mhz) w1)
                      acc w0) as Hworld;
        destruct (for_each_acc l acc body w0) as [[ss|e] w1]
    end; cbn [snd] in Hworld; subst w1; ends_either_way.
Qed.

Lemma print_preemption_telemetry_run (preemption_telemetry_info : device -> result ptree)
      (dev : device) (is_json : bool) (w : world) :
  (exists out, print_preemption_telemetry preemption_telemetry_info dev is_json w
               = (Ok tt, put_cout out (put_call (call_preemption_telemetry_info dev) w)))
  \/ (exists e, print_preemption_telemetry preemption_telemetry_info dev is_json w
                = (Throw e, put_call (call_preemption_telemetry_info dev) w)).
Proof.
  destruct (print_preemption_telemetry preemption_telemetry_info dev is_json w)
    as [res w'] eqn:Hrun.
  revert Hrun. unfold print_preemption_telemetry, bind at 1, collaborator.
  destruct (preemption_telemetry_info dev) as [telemetry_pt|e]; [ | ends_either_way].
  cbv zeta. destruct (ptree_empty _); [ends_either_way | ].
  destruct is_json.
  - unfold bind, lift. destruct (write_json telemetry_pt true); ends_either_way.
  - unfold bind at 1.
    match goal with
    | |- context [for_each_acc ?l ?acc ?body ?w0] =>
        assert (Hbody : forall x tb w1, snd (body x tb w1) = w1);
        [ | pose proof (for_each_acc_world body l Hbody acc w0) as Hworld;
            destruct (for_each_acc l acc body w0) as [[tb|e] w1] ]
    end.
    { intros kc tb w1. unfold bind. pose proof (rtos_data_world (snd kc) w1) as Hrow.
      destruct (rtos_data (snd kc) w1) as [[row|e] w2]; cbn [snd] in *; now subst. }
    all: cbn [snd] in Hworld; subst w1; ends_either_way.
Qed.

Lemma render_run (get_clock_info preemption_telemetry_info : device -> result ptree)
      (r : report) (dev : device) (is_json : bool) (w : world) :
  (exists out, render get_clock_info preemption_telemetry_info r dev is_json w
               = (Ok tt, put_cout out (put_call (renderer_call r dev) w)))
  \/ (exists e, render get_clock_info preemption_telemetry_info r dev is_json w
                = (Throw e, put_call (renderer_call r dev) w)).
Proof.
  destruct r; [apply print_clock_info_run | apply print_preemption_telemetry_run].
Qed.

(** X3. What a renderer touches.  Whatever the device returns and whichever
    mode is asked for, a renderer calls its own fetch once and nothing
    else, leaves standard error and the verbose log alone, and only ever
    appends to standard output; when it throws it has written nothing. *)
Theorem render_footprint (get_clock_info preemption_telemetry_info : device -> result ptree)
        (r : report) (dev : device) (is_json : bool) (w : world) :
  cerr (snd (render get_clock_info preemption_telemetry_info r dev is_json w)) = cerr w
  /\ verbose_log (snd (render get_clock_info preemption_telemetry_info r dev is_json w))
     = verbose_log w
  /\ calls (snd (render get_clock_info preemption_telemetry_info r dev is_json w))
     = (calls w ++ [renderer_call r dev])%list
  /\ (exists out,
        cout (snd (render get_clock_info preemption_telemetry_info r dev is_json w))
        = cout w ++ out)
  /\ (forall e,
        fst (render get_clock_info preemption_telemetry_info r dev is_json w) = Throw e ->
        cout (snd (render get_clock_info preemption_telemetry_info r dev is_json w))
        = cout w).
Proof.
  destruct (render_run get_clock_info preemption_telemetry_info r dev is_json w)
    as [[out Hrun] | [e Hrun]]; rewrite Hrun; cbn [fst snd put_cout put_call cout cerr
                                                  verbose_log calls].
  - repeat split; try reflexivity; [now exists out | discriminate].
  - repeat split; try reflexivity. exists EmptyString. now rewrite append_nil_r.
Qed.

Lemma entries_have_not_empty (keys : list string) (key : string) (pt : ptree) :
  entries_have keys (children_of (get_child key empty_ptree pt)) = false ->
  ptree_empty (get_child key empty_ptree pt) = false.
Proof.
  unfold ptree_empty. destruct (children_of (get_child key empty_ptree pt));
    [discriminate | reflexivity].
Qed.

(** The loop over the clock entries stops at the first entry that lacks a
    field, with the property tree's error for that field. *)
Lemma clock_loop_missing (entries : list (string * ptree)) :
  entries_have clock_keys entries = false ->
  forall (ss : string) (w : world),
  exists key,
    In key clock_keys
    /\ for_each_acc entries ss
         (fun kc ss =>
            let pt_clock := snd kc in
            freq_mhz <- lift (get_string "freq_mhz" pt_clock) ;;
            id <- lift (get_string "id" pt_clock) ;;
            ret (ss ++ format_clock_line id freq_mhz)) w
       = (Throw (std_runtime_error ("No such node (" ++ key ++ ")")), w).
Proof.
  induction entries as [|kc entries IH]; [discriminate | ].
  intros Hwf ss w. cbn [entries_have forallb clock_keys] in Hwf.
  cbn [for_each_acc]. unfold bind at 1. cbv zeta.
  unfold bind at 1 2, lift at 1 2, ret, get_string at 1 2.
  unfold has_field in Hwf.
  destruct (find_child "freq_mhz" (children_of (snd kc))).
  - destruct (find_child "id" (children_of (snd kc))).
    + apply IH. exact Hwf.
    + exists "id". split; [simpl; tauto | reflexivity].
  - exists "freq_mhz". split; [simpl; tauto | reflexivity].
Qed.

Lemma rtos_data_missing (user_task : ptree) (w : world) :
  forallb (fun key => has_field key user_task) telemetry_keys = false ->
  exists key,
    In key telemetry_keys
    /\ rtos_data user_task w
       = (Throw (std_runtime_error ("No such node (" ++ key ++ ")")), w).
Proof.
  unfold telemetry_keys. cbn [forallb]. unfold has_field.
  unfold rtos_data, bind, lift, ret, get_string.
  repeat match goal with
         | |- context [find_child ?k (children_of user_task)] =>
             destruct (find_child k (children_of user_task));
             [ | intros _; exists k; split; [simpl; tauto | reflexivity] ]
         end.
  discriminate.
Qed.

Lemma telemetry_loop_missing (entries : list (string * ptree)) :
  entries_have telemetry_keys entries = false ->
  forall (tb : Table2D.t) (w : world),
  exists key,
    In key telemetry_keys
    /\ for_each_acc entries tb
         (fun kc tb =>
            let user_task := snd kc in
            row <- rtos_data user_task ;;
            ret (Table2D.addEntry row tb)) w
       = (Throw (std_runtime_error ("No such node (" ++ key ++ ")")), w).
Proof.
  induction entries as [|kc entries IH]; [discriminate | ].
  intros Hwf tb w. cbn [entries_have forallb] in Hwf.
  cbn [for_each_acc]. unfold bind at 1. cbv zeta. unfold bind at 1.
  destruct (forallb (fun key => has_field key (snd kc)) telemetry_keys) eqn:Hhead.
  - rewrite (rtos_data_fields _ w Hhead). unfold ret. apply IH. exact Hwf.
  - destruct (rtos_data_missing (snd kc) w Hhead) as [key [Hin Hrow]].
    rewrite Hrow. exists key. now split.
Qed.

Section RendererEdges.

Variable get_clock_info : device -> result ptree.
Variable preemption_telemetry_info : device -> result ptree.

(** X1. When the fetched telemetry structure has no hardware contexts (no
    "telemetry" child, or a childless one), the telemetry renderer writes
    exactly its title, the line " No hardware contexts running on device"
    and an empty line, whether or not JSON was asked for. *)
Theorem print_preemption_telemetry_empty (dev : device) (is_json : bool)
        (telemetry_pt : ptree) (w : world) :
  preemption_telemetry_info dev = Ok telemetry_pt ->
  ptree_empty (get_child "telemetry" empty_ptree telemetry_pt) = true ->
  print_preemption_telemetry preemption_telemetry_info dev is_json w
  = (Ok tt,
     put_cout ("Premption Telemetry Data" ++ nl
               ++ " No hardware contexts running on device" ++ nl ++ nl)
              (put_call (call_preemption_telemetry_info dev) w)).
Proof.
  intros Hfetch Hempty.
  unfold print_preemption_telemetry, bind, collaborator. rewrite Hfetch, Hempty.
  reflexivity.
Qed.

(** X2. With JSON asked for and a non-empty telemetry structure (a
    sequence of records, each a non-empty list of named fields, names and
    values in plain characters), the telemetry renderer writes one
    pretty-printed JSON document and nothing else, no title and no table:
    an object whose one member "telemetry" is an array holding one object
    per hardware context, in order, each with its fields. *)
Theorem print_preemption_telemetry_json (dev : device)
        (records : list (list (string * string))) (w : world) :
  preemption_telemetry_info dev = Ok (report_tree "telemetry" records) ->
  ptree_empty (get_child "telemetry" empty_ptree (report_tree "telemetry" records)) = false ->
  forallb record_ok records = true ->
  print_preemption_telemetry preemption_telemetry_info dev true w
  = (Ok tt,
     put_cout
       ("{" ++ nl ++ "    " ++ in_quotes "telemetry" ++ ": [" ++ nl
        ++ String.concat ("," ++ nl)
             (map (fun fields =>
                     "        {" ++ nl
                     ++ String.concat ("," ++ nl)
                          (map (fun kv => "            " ++ in_quotes (fst kv) ++ ": "
                                          ++ in_quotes (snd kv)) fields)
                     ++ nl ++ "        }")
                  records)
        ++ nl ++ "    ]" ++ nl ++ "}" ++ nl)
       (put_call (call_preemption_telemetry_info dev) w))
  /\ List.length (telemetry_contexts (report_tree "telemetry" records))
     = List.length records.
Proof.
  intros Hfetch Hfull Hok. split.
  - unfold print_preemption_telemetry, bind at 1, collaborator. rewrite Hfetch, Hfull.
    unfold bind, lift.
    rewrite (write_json_report_tree "telemetry" records eq_refl); [reflexivity | | exact Hok].
    intros ->. discriminate Hfull.
  - unfold telemetry_contexts, get_child, report_tree. cbn. now rewrite length_map.
Qed.

(** X4. In table mode, when some clock entry lacks its "id" or its
    "freq_mhz", the clock renderer throws the property tree's
    "No such node" error for one of the two, and nothing reaches standard
    output: neither the header nor the lines of the entries before it. *)
Theorem print_clock_info_missing_field (dev : device) (clocks : ptree) (w : world) :
  get_clock_info dev = Ok clocks ->
  entries_have clock_keys (clock_entries clocks) = false ->
  exists key,
    In key clock_keys
    /\ print_clock_info get_clock_info dev false w
       = (Throw (std_runtime_error ("No such node (" ++ key ++ ")")),
          put_call (call_get_clock_info dev) w).
Proof.
  intros Hfetch Hwf.
  destruct (clock_loop_missing _ Hwf ("Clocks" ++ nl)
              (put_call (call_get_clock_info dev) w)) as [key [Hin Hloop]].
  exists key. split; [exact Hin | ].
  unfold print_clock_info, bind at 1, collaborator.
  rewrite Hfetch, (entries_have_not_empty _ _ _ Hwf).
  unfold bind at 1. fold (clock_entries clocks). cbv zeta in Hloop |- *. now rewrite Hloop.
Qed.

(** X5. In table mode, when some hardware context lacks one of its six
    counters, the telemetry renderer throws the property tree's
    "No such node" error for one of them, and nothing reaches standard
    output. *)
Theorem print_preemption_telemetry_missing_field (dev : device) (telemetry_pt : ptree)
        (w : world) :
  preemption_telemetry_info dev = Ok telemetry_pt ->
  entries_have telemetry_keys (telemetry_contexts telemetry_pt) = false ->
  exists key,
    In key telemetry_keys
    /\ print_preemption_telemetry preemption_telemetry_info dev false w
       = (Throw (std_runtime_error ("No such node (" ++ key ++ ")")),
          put_call (call_preemption_telemetry_info dev) w).
Proof.
  intros Hfetch Hwf.
  destruct (telemetry_loop_missing _ Hwf (Table2D.make preempt_headers)
              (put_call (call_preemption_telemetry_info dev) w)) as [key [Hin Hloop]].
  exists key. split; [exact Hin | ].
  unfold print_preemption_telemetry, bind at 1, collaborator.
  rewrite Hfetch, (entries_have_not_empty _ _ _ Hwf).
  unfold bind at 1. fold (telemetry_contexts telemetry_pt). cbv zeta in Hloop |- *.
  now rewrite Hloop.
Qed.

End RendererEdges.

(** ** The layout of the clock table *)

Lemma count_char_append (c : ascii) (a b : string) :
  count_char c (a ++ b) = count_char c a + count_char c b.
Proof.
  induction a as [|x a IH]; simpl; [reflexivity | rewrite IH; lia].
Qed.

Lemma count_nl_spaces (n : nat) : count_char "010"%char (spaces n) = 0.
Proof.
  induction n as [|n IH]; simpl; [reflexivity | exact IH].
Qed.

Lemma count_nl_clock_line (id freq_mhz : string) :
  count_char "010"%char (format_clock_line id freq_mhz)
  = count_char "010"%char id + count_char "010"%char freq_mhz + 1.
Proof.
  unfold format_clock_line, format_s.
  rewrite !count_char_append, !count_nl_spaces. simpl. lia.
Qed.

Lemma count_nl_clock_lines (entries : list (string * ptree)) :
  forallb (fun kc =>
             (count_char "010"%char (field_data "id" (snd kc)) =? 0)%nat
             && (count_char "010"%char (field_data "freq_mhz" (snd kc)) =? 0)%nat)
          entries = true ->
  count_char "010"%char
    (String.concat EmptyString
       (map (fun kc => format_clock_line (field_data "id" (snd kc))
                                         (field_data "freq_mhz" (snd kc)))
            entries))
  = List.length entries.
Proof.
  induction entries as [|kc entries IH]; [reflexivity | ].
  cbn [forallb map List.length]. intros Hclean.
  apply andb_true_iff in Hclean. destruct Hclean as [Hkc Hrest].
  apply andb_true_iff in Hkc. destruct Hkc as [Hid Hfreq].
  apply Nat.eqb_eq in Hid. apply Nat.eqb_eq in Hfreq.
  specialize (IH Hrest).
  assert (Hline : count_char "010"%char
                    (format_clock_line (field_data "id" (snd kc))
                                       (field_data "freq_mhz" (snd kc))) = 1)
    by (rewrite count_nl_clock_line; lia).
  destruct entries as [|kc' entries].
  - exact Hline.
  - cbn [map] in *.
    change (String.concat EmptyString
              (format_clock_line (field_data "id" (snd kc))
                                 (field_data "freq_mhz" (snd kc))
               :: format_clock_line (field_data "id" (snd kc'))
                                    (field_data "freq_mhz" (snd kc'))
               :: map (fun kc0 => format_clock_line (field_data "id" (snd kc0))
                                                    (field_data "freq_mhz" (snd kc0)))
                      entries))
      with (format_clock_line (field_data "id" (snd kc)) (field_data "freq_mhz" (snd kc))
            ++ String.concat EmptyString
                 (format_clock_line (field_data "id" (snd kc'))
                                    (field_data "freq_mhz" (snd kc'))
                  :: map (fun kc0 => format_clock_line (field_data "id" (snd kc0))
                                                       (field_data "freq_mhz" (snd kc0)))
                         entries)).
    rewrite count_char_append, Hline, IH. reflexivity.
Qed.

(** X6. The layout of a line of the clock table.  A line is 9 characters
    longer than its two fields, the id field being 23 characters wide or
    as wide as a longer id and the frequency field 3 characters wide or as
    wide as a longer frequency: nothing is cut.  The colon comes right
    after the id field, so for ids of at most 23 characters the colons of
    all lines stand at the same offset, 25. *)
Theorem format_clock_line_layout (id freq_mhz : string) :
  String.length (format_clock_line id freq_mhz)
  = 9 + Nat.max 23 (String.length id) + Nat.max 3 (String.length freq_mhz)
  /\ get (2 + Nat.max 23 (String.length id)) (format_clock_line id freq_mhz)
     = Some ":"%char.
Proof.
  unfold format_clock_line. split.
  - rewrite !length_append, !length_format_s. unfold nl. simpl. lia.
  - rewrite <- (length_format_s true 23 id).
    change (get (2 + ?n) ("  " ++ ?x)) with (get n x).
    pose proof (append_correct2 (format_s true 23 id)
                  (": " ++ format_s false 3 freq_mhz ++ " MHz" ++ nl) 0) as Hget.
    cbn [Nat.add] in Hget. rewrite <- Hget. reflexivity.
Qed.

Section ClockTableLines.

Variable get_clock_info : device -> result ptree.

(** X7. In table mode, for a non-empty clock-info structure whose entries
    carry an id and a frequency free of line feeds, the text the clock
    renderer writes holds exactly one line feed per entry plus the one of
    the header: N entries give N + 1 lines. *)
Theorem print_clock_info_line_count (dev : device) (clocks : ptree) (w : world) :
  get_clock_info dev = Ok clocks ->
  ptree_empty (get_child "clocks" empty_ptree clocks) = false ->
  entries_have clock_keys (clock_entries clocks) = true ->
  forallb (fun kc =>
             (count_char "010"%char (field_data "id" (snd kc)) =? 0)%nat
             && (count_char "010"%char (field_data "freq_mhz" (snd kc)) =? 0)%nat)
          (clock_entries clocks) = true ->
  exists text,
    print_clock_info get_clock_info dev false w
    = (Ok tt, put_cout text (put_call (call_get_clock_info dev) w))
    /\ count_char "010"%char text = 1 + List.length (clock_entries clocks).
Proof.
  intros Hfetch Hfull Hwf Hclean.
  eexists. split; [apply (clock_report_table get_clock_info dev clocks w Hfetch Hfull Hwf) | ].
  rewrite count_char_append, (count_nl_clock_lines _ Hclean). reflexivity.
Qed.

End ClockTableLines.

(** ** Every way through the command *)

Lemma fold_put_verbose (l : list string) (w : world) :
  cout (fold_left (fun w aString => put_verbose (" " ++ aString) w) l w) = cout w
  /\ cerr (fold_left (fun w aString => put_verbose (" " ++ aString) w) l w) = cerr w
  /\ verbose_log (fold_left (fun w aString => put_verbose (" " ++ aString) w) l w)
     = (verbose_log w ++ map (fun aString => (" " ++ aString)%string) l)%list.
Proof.
  revert w. induction l as [|x l IH]; intros w; cbn [fold_left map].
  - now rewrite app_nil_r.
  - destruct (IH (put_verbose (" " ++ x) w)) as [Hout [Herr Hlog]].
    rewrite Hout, Herr, Hlog. cbn [put_verbose cout cerr verbose_log].
    now rewrite <- app_assoc.
Qed.

Lemma cout_log_options (_options : SubCmdOptions) (w : world) :
  cout (log_options _options w) = cout w.
Proof.
  unfold log_options. now rewrite (proj1 (fold_put_verbose _ _)).
Qed.

Lemma cerr_log_options (_options : SubCmdOptions) (w : world) :
  cerr (log_options _options w) = cerr w.
Proof.
  unfold log_options. now rewrite (proj1 (proj2 (fold_put_verbose _ _))).
Qed.

Lemma verbose_log_log_options (_options : SubCmdOptions) (w : world) :
  verbose_log (log_options _options w) = (verbose_log w ++ logged_lines _options)%list.
Proof.
  unfold log_options, logged_lines.
  rewrite (proj2 (proj2 (fold_put_verbose _ _))).
  cbn [put_verbose verbose_log]. now rewrite <- !app_assoc.
Qed.

Lemma xrt_core_error_is_runtime_error (e : exn) :
  is_xrt_core_error e = true -> is_runtime_error e = true.
Proof.
  destruct e; simpl; congruence.
Qed.

Lemma contains_starts_with (p s : string) :
  starts_with p s = true -> contains p s = true.
Proof.
  intros H. destruct s; simpl; rewrite H; reflexivity.
Qed.

Lemma contains_skip (p : string) (c : ascii) (s : string) :
  contains p s = true -> contains p (String c s) = true.
Proof.
  intros H. cbn [contains]. rewrite H. apply orb_true_r.
Qed.

Lemma tolower_idempotent (c : ascii) : tolower (tolower c) = tolower c.
Proof.
  destruct c as [b0 b1 b2 b3 b4 b5 b6 b7].
  destruct b0, b1, b2, b3, b4, b5, b6, b7; reflexivity.
Qed.

Lemma to_lower_copy_idempotent (s : string) :
  to_lower_copy (to_lower_copy s) = to_lower_copy s.
Proof.
  induction s as [|c s IH]; [reflexivity | ].
  cbn [to_lower_copy map_string]. fold (to_lower_copy s).
  fold (to_lower_copy (to_lower_copy s)). now rewrite tolower_idempotent, IH.
Qed.

(** The steps of [execute], one tactic each. *)
Ltac run_logging :=
  unfold execute;
  erewrite bind_ok by reflexivity;
  erewrite bind_ok by reflexivity;
  erewrite bind_ok by apply for_each_verbose;
  match goal with
  | |- context [fold_left ?f ?l (put_verbose ?a (put_verbose ?b ?w))] =>
      change (fold_left f l (put_verbose a (put_verbose b w))) with (log_options l w)
  end.

Ltac run_parsing Hnohelp Hparse :=
  run_logging; rewrite Hnohelp;
  erewrite bind_ok by (unfold collaborator; rewrite Hparse; reflexivity).

Ltac run_lookup Hdev :=
  erewrite bind_ok
    by (apply try_catch_ok; cbv zeta; unfold collaborator; rewrite Hdev; reflexivity).

Section CommandPaths.

Variable process_arguments : SubCmdOptions -> result OO_Reports.
Variable get_device : string -> bool -> result device.
Variable get_clock_info : device -> result ptree.
Variable preemption_telemetry_info : device -> result ptree.

Abbreviation run := (execute process_arguments get_device get_clock_info
                             preemption_telemetry_info).
Abbreviation outcome := (execute_outcome process_arguments get_device get_clock_info
                                         preemption_telemetry_info).

(** Reaching the dispatch with the name of a report. *)
Lemma dispatch_run (_options : SubCmdOptions) (this : OO_Reports) (dev : device)
      (r : report) (w : world) :
  existsb (String.eqb "--help") _options = false ->
  process_arguments _options = Ok this ->
  m_help this = false ->
  get_device (to_lower_copy (m_device this)) true = Ok dev ->
  report_named (m_action this) = Some r ->
  run _options w
  = try_catch
      (render get_clock_info preemption_telemetry_info r dev (m_json this))
      is_xrt_core_error
      (fun e =>
         write_cerr (nl ++ "ERROR: " ++ what e ++ nl) ;;
         printHelp ;;
         throw (xrt_core_error_code operation_canceled))
      (after_lookup _options this w).
Proof.
  intros Hnohelp Hparse Hhelp Hdev Hreport.
  run_parsing Hnohelp Hparse.
  rewrite Hhelp, (report_named_not_empty _ _ Hreport).
  run_lookup Hdev.
  rewrite report_named_iequals in Hreport.
  destruct (iequals (m_action this) "clocks").
  - injection Hreport as <-. reflexivity.
  - destruct (iequals (m_action this) "preemption"); [ | discriminate].
    injection Hreport as <-. reflexivity.
Qed.

(** Whatever the options and whatever the collaborators do, [execute] ends
    in one of the ways listed by [execute_outcome]. *)
Lemma execute_outcome_complete (_options : SubCmdOptions) (w : world) :
  exists res w', run _options w = (res, w') /\ outcome _options w res w'.
Proof.
  destruct (existsb (String.eqb "--help") _options) eqn:Hnohelp.
  { assert (Hin : In "--help" _options).
    { apply existsb_exists in Hnohelp. destruct Hnohelp as [x [Hin Heq]].
      apply String.eqb_eq in Heq. now subst x. }
    do 2 eexists. split; [ | apply outcome_help; exact Hin].
    run_logging. rewrite Hnohelp. reflexivity. }
  destruct (process_arguments _options) as [this|e] eqn:Hparse.
  2: { do 2 eexists. split; [ | eapply outcome_parse_failed; eassumption].
       run_logging. rewrite Hnohelp.
       erewrite bind_throw by (unfold collaborator; rewrite Hparse; reflexivity).
       reflexivity. }
  destruct (m_help this) eqn:Hhelp.
  { do 2 eexists. split; [ | eapply outcome_help_flag; eassumption].
    run_parsing Hnohelp Hparse. rewrite Hhelp. reflexivity. }
  destruct (string_empty (m_action this)) eqn:Hmode.
  { do 2 eexists. split; [ | eapply outcome_mode_missing; eassumption].
    run_parsing Hnohelp Hparse. rewrite Hhelp, Hmode. reflexivity. }
  destruct (get_device (to_lower_copy (m_device this)) true) as [dev|e] eqn:Hdev.
  2: { destruct (is_runtime_error e) eqn:Hkind.
       - do 2 eexists. split; [ | eapply outcome_lookup_failed; eassumption].
         run_parsing Hnohelp Hparse. rewrite Hhelp, Hmode.
         unfold bind at 1, try_catch, collaborator. cbv zeta. rewrite Hdev, Hkind.
         reflexivity.
       - do 2 eexists. split; [ | eapply outcome_lookup_escaped; eassumption].
         run_parsing Hnohelp Hparse. rewrite Hhelp, Hmode.
         unfold bind at 1, try_catch, collaborator. cbv zeta. rewrite Hdev, Hkind.
         reflexivity. }
  destruct (report_named (m_action this)) as [r|] eqn:Hreport.
  2: { do 2 eexists. split; [ | eapply outcome_invalid_report; eassumption].
       run_parsing Hnohelp Hparse. rewrite Hhelp, Hmode. run_lookup Hdev.
       rewrite report_named_iequals in Hreport.
       destruct (iequals (m_action this) "clocks"); [discriminate | ].
       destruct (iequals (m_action this) "preemption"); [discriminate | ].
       unfold try_catch, throw. cbn [is_xrt_core_error what].
       cbn [bind write_cerr printHelp collaborator throw].
       now rewrite !append_assoc. }
  rewrite (dispatch_run _ _ _ _ w Hnohelp Hparse Hhelp Hdev Hreport).
  unfold try_catch.
  destruct (render_run get_clock_info preemption_telemetry_info r dev (m_json this)
              (after_lookup _options this w)) as [[out Hrender] | [e Hrender]];
    rewrite Hrender.
  - do 2 eexists. split; [reflexivity | eapply outcome_report_done; eassumption].
  - destruct (is_xrt_core_error e) eqn:Hkind.
    + do 2 eexists. split; [reflexivity | eapply outcome_report_failed; eassumption].
    + do 2 eexists. split; [reflexivity | eapply outcome_report_escaped; eassumption].
Qed.

End CommandPaths.

(** ** Further properties of the command *)

Section CommandEdges.

Variable process_arguments : SubCmdOptions -> result OO_Reports.
Variable get_device : string -> bool -> result device.
Variable get_clock_info : device -> result ptree.
Variable preemption_telemetry_info : device -> result ptree.

Abbreviation run := (execute process_arguments get_device get_clock_info
                             preemption_telemetry_info).
Abbreviation outcome := (execute_outcome process_arguments get_device get_clock_info
                                         preemption_telemetry_info).

(** X8. When the option parser throws, [execute] lets that very exception
    through and calls no collaborator after the parser: no device lookup,
    no fetch, and no usage call of its own. *)
Theorem execute_parse_failed (_options : SubCmdOptions) (e : exn) (w : world) :
  existsb (String.eqb "--help") _options = false ->
  process_arguments _options = Throw e ->
  fst (run _options w) = Throw e
  /\ calls (snd (run _options w)) = (calls w ++ [call_process_arguments _options])%list.
Proof.
  intros Hnohelp Hparse.
  assert (Hrun : run _options w
                 = (Throw e,
                    put_call (call_process_arguments _options) (log_options _options w))).
  { run_logging. rewrite Hnohelp.
    erewrite bind_throw by (unfold collaborator; rewrite Hparse; reflexivity).
    reflexivity. }
  rewrite Hrun. cbn [fst snd put_call calls]. rewrite calls_log_options.
  split; reflexivity.
Qed.

(** X9. When parsing leaves the help flag set, although [--help] itself is
    not among the options, the command prints the usage and returns
    normally, whatever the mode and the device: nothing is written to
    standard error and no device is looked up. *)
Theorem execute_help_flag (_options : SubCmdOptions) (this : OO_Reports) (w : world) :
  existsb (String.eqb "--help") _options = false ->
  process_arguments _options = Ok this ->
  m_help this = true ->
  run _options w
  = (Ok tt,
     put_call call_printHelp
       (put_call (call_process_arguments _options) (log_options _options w))).
Proof.
  intros Hnohelp Hparse Hhelp. run_parsing Hnohelp Hparse. rewrite Hhelp. reflexivity.
Qed.

(** X10. When the device lookup throws, a [std::runtime_error] (an
    [xrt_core::error] included) is turned into the line "ERROR: <what>" on
    standard error and the cancellation error, without the usage being
    printed; any other exception leaves [execute] as it is.  In both cases
    no renderer runs. *)
Theorem execute_lookup_failed (_options : SubCmdOptions) (this : OO_Reports) (e : exn)
        (w : world) :
  existsb (String.eqb "--help") _options = false ->
  process_arguments _options = Ok this ->
  m_help this = false ->
  string_empty (m_action this) = false ->
  get_device (to_lower_copy (m_device this)) true = Throw e ->
  run _options w
  = if is_runtime_error e
    then (Throw (xrt_core_error_code operation_canceled),
          put_cerr ("ERROR: " ++ what e ++ nl)
            (put_call (call_get_device (to_lower_copy (m_device this)) true)
               (put_call (call_process_arguments _options) (log_options _options w))))
    else (Throw e,
          put_call (call_get_device (to_lower_copy (m_device this)) true)
            (put_call (call_process_arguments _options) (log_options _options w))).
Proof.
  intros Hnohelp Hparse Hhelp Hmode Hdev.
  run_parsing Hnohelp Hparse. rewrite Hhelp, Hmode.
  unfold bind at 1, try_catch, collaborator. cbv zeta. rewrite Hdev.
  destruct (is_runtime_error e); reflexivity.
Qed.


(** X12. The clock table with a defective entry, seen from the command:
    the "No such node" error of the property tree is not an
    [xrt_core::error], so it leaves [execute] uncaught: nothing on
    standard output, no diagnostic on standard error, no usage. *)
Theorem execute_clock_entry_defective (_options : SubCmdOptions) (this : OO_Reports)
        (dev : device) (clocks : ptree) (w : world) :
  existsb (String.eqb "--help") _options = false ->
  process_arguments _options = Ok this ->
  m_help this = false ->
  m_json this = false ->
  get_device (to_lower_copy (m_device this)) true = Ok dev ->
  report_named (m_action this) = Some report_clocks ->
  get_clock_info dev = Ok clocks ->
  entries_have clock_keys (clock_entries clocks) = false ->
  exists key,
    In key clock_keys
    /\ run _options w
       = (Throw (std_runtime_error ("No such node (" ++ key ++ ")")),
          put_call (call_get_clock_info dev) (after_lookup _options this w)).
Proof.
  intros Hnohelp Hparse Hhelp Hjson Hdev Hreport Hfetch Hwf.
  destruct (clock_loop_missing _ Hwf ("Clocks" ++ nl)
              (put_call (call_get_clock_info dev) (after_lookup _options this w)))
    as [key [Hin Hloop]].
  exists key. split; [exact Hin | ].
  rewrite (dispatch_run process_arguments get_device get_clock_info
             preemption_telemetry_info _ _ _ _ w Hnohelp Hparse Hhelp Hdev Hreport).
  rewrite Hjson. unfold try_catch. cbn [render].
  unfold print_clock_info, bind at 1, collaborator.
  rewrite Hfetch, (entries_have_not_empty _ _ _ Hwf).
  unfold bind at 1. fold (clock_entries clocks). cbv zeta in Hloop |- *.
  rewrite Hloop. reflexivity.
Qed.

(** X13. The clock table, seen from the command: with a resolved device, a
    mode that is "clocks" in any letter case, no JSON asked for and
    well-formed clock entries, the command returns normally having written
    the header and one formatted line per entry to standard output,
    nothing to standard error, and without printing the usage. *)
Theorem execute_clock_table (_options : SubCmdOptions) (this : OO_Reports)
        (dev : device) (clocks : ptree) (w : world) :
  existsb (String.eqb "--help") _options = false ->
  process_arguments _options = Ok this ->
  m_help this = false ->
  m_json this = false ->
  get_device (to_lower_copy (m_device this)) true = Ok dev ->
  report_named (m_action this) = Some report_clocks ->
  get_clock_info dev = Ok clocks ->
  ptree_empty (get_child "clocks" empty_ptree clocks) = false ->
  entries_have clock_keys (clock_entries clocks) = true ->
  run _options w
  = (Ok tt,
     put_cout
       (("Clocks" ++ nl) ++
        String.concat EmptyString
          (map (fun kc => format_clock_line (field_data "id" (snd kc))
                                            (field_data "freq_mhz" (snd kc)))
               (clock_entries clocks)))
       (put_call (call_get_clock_info dev) (after_lookup _options this w))).
Proof.
  intros Hnohelp Hparse Hhelp Hjson Hdev Hreport Hfetch Hfull Hwf.
  rewrite (dispatch_run process_arguments get_device get_clock_info
             preemption_telemetry_info _ _ _ _ w Hnohelp Hparse Hhelp Hdev Hreport).
  rewrite Hjson. unfold try_catch. cbn [render].
  now rewrite (clock_report_table get_clock_info dev clocks _ Hfetch Hfull Hwf).
Qed.

End CommandEdges.

(** ** What holds on every way through the command *)

(** The calls of an outcome, laid out after the calls made before. *)
Ltac outcome_calls :=
  unfold after_lookup, after_parse;
  cbn [calls put_call put_cout put_cerr];
  rewrite calls_log_options, <- ?app_assoc;
  eexists; split; [reflexivity | ].

Section CommandInvariants.

Variable process_arguments : SubCmdOptions -> result OO_Reports.
Variable get_device : string -> bool -> result device.
Variable get_clock_info : device -> result ptree.
Variable preemption_telemetry_info : device -> result ptree.

Abbreviation run := (execute process_arguments get_device get_clock_info
                             preemption_telemetry_info).

(** X14. Whenever [execute] returns normally, it has written nothing to
    standard error. *)
Theorem execute_success_quiet (_options : SubCmdOptions) (w : world) :
  fst (run _options w) = Ok tt ->
  cerr (snd (run _options w)) = cerr w.
Proof.
  destruct (execute_outcome_complete process_arguments get_device get_clock_info
              preemption_telemetry_info _options w) as [res [w' [Hrun Hout]]].
  rewrite Hrun. cbn [fst snd].
  destruct Hout; intros Hres; try discriminate Hres;
    unfold after_lookup, after_parse; cbn [cerr put_call put_cout put_cerr];
    apply cerr_log_options.
Qed.

(** X15. Once the options are parsed, the only [xrt_core::error] that
    leaves [execute] is the cancellation error, and by then standard error
    has received a diagnostic that holds "ERROR: ". *)
Theorem execute_cancellation_diagnosed (_options : SubCmdOptions) (this : OO_Reports)
        (e : exn) (w : world) :
  process_arguments _options = Ok this ->
  fst (run _options w) = Throw e ->
  is_xrt_core_error e = true ->
  e = xrt_core_error_code operation_canceled
  /\ exists diagnostic,
      cerr (snd (run _options w)) = cerr w ++ diagnostic
      /\ contains "ERROR: " diagnostic = true.
Proof.
  intros Hparse.
  destruct (execute_outcome_complete process_arguments get_device get_clock_info
              preemption_telemetry_info _options w) as [res [w' [Hrun Hout]]].
  rewrite Hrun. cbn [fst snd].
  destruct Hout as [ | e0 | | | this0 e0 | this0 e0 | | | this0 dev r e0 | this0 dev r e0 ];
    intros Hres Hkind; try discriminate Hres; try congruence;
    injection Hres as <-;
    try (apply xrt_core_error_is_runtime_error in Hkind; congruence);
    (split; [reflexivity | ]);
    unfold after_lookup, after_parse; cbn [cerr put_call put_cout put_cerr];
    rewrite cerr_log_options; eexists; (split; [reflexivity | ]).
  - reflexivity.
  - apply contains_starts_with. apply starts_with_append.
  - apply contains_skip. reflexivity.
  - apply contains_skip. apply contains_starts_with. apply starts_with_append.
Qed.

(** X16. On every way through [execute] the usage is printed at most
    once. *)
Theorem execute_usage_once (_options : SubCmdOptions) (w : world) :
  exists tail,
    calls (snd (run _options w)) = (calls w ++ tail)%list
    /\ List.length (filter is_printHelp tail) <= 1.
Proof.
  destruct (execute_outcome_complete process_arguments get_device get_clock_info
              preemption_telemetry_info _options w) as [res [w' [Hrun Hout]]].
  rewrite Hrun. cbn [snd].
  destruct Hout; outcome_calls;
    try match goal with r : report |- _ => destruct r end;
    cbn; lia.
Qed.

(** X17. On every way through [execute] the device is looked up at most
    once, always in the user domain, and never with an identifier that
    still holds an upper-case letter. *)
Theorem execute_lookup_discipline (_options : SubCmdOptions) (w : world) :
  exists tail,
    calls (snd (run _options w)) = (calls w ++ tail)%list
    /\ List.length (filter is_lookup tail) <= 1
    /\ forall id inUserDomain,
        In (call_get_device id inUserDomain) tail ->
        inUserDomain = true /\ to_lower_copy id = id.
Proof.
  destruct (execute_outcome_complete process_arguments get_device get_clock_info
              preemption_telemetry_info _options w) as [res [w' [Hrun Hout]]].
  rewrite Hrun. cbn [snd].
  destruct Hout; outcome_calls;
    try match goal with r : report |- _ => destruct r end;
    (split; [cbn; lia | ]);
    intros id inUserDomain Hin; cbn in Hin;
    repeat match goal with
           | H : _ \/ _ |- _ => destruct H as [H | H]
           end;
    try contradiction; try discriminate;
    injection Hin as <- <-; (split; [reflexivity | apply to_lower_copy_idempotent]).
Qed.

(** X18. The report text and failure.  The statements of this file that
    write to [std::cout] (the report text; the usage that [printHelp]
    prints is that collaborator's own output and is recorded as a call)
    run only on a way through [execute] that calls a fetch and returns
    normally: on every other way, and so whenever [execute] throws, they
    have written nothing. *)
Theorem execute_report_text_only_on_success (_options : SubCmdOptions) (w : world) :
  exists tail,
    calls (snd (run _options w)) = (calls w ++ tail)%list
    /\ (cout (snd (run _options w)) = cout w
        \/ (fst (run _options w) = Ok tt /\ existsb is_fetch tail = true)).
Proof.
  destruct (execute_outcome_complete process_arguments get_device get_clock_info
              preemption_telemetry_info _options w) as [res [w' [Hrun Hout]]].
  rewrite Hrun. cbn [fst snd].
  destruct Hout; outcome_calls;
    try match goal with r : report |- _ => destruct r end;
    first [ right; split; reflexivity
          | left; unfold after_lookup, after_parse; cbn [cout put_call put_cout put_cerr];
            apply cout_log_options ].
Qed.

(** X19. On every way through [execute], whether it returns or throws, the
    verbose log receives exactly the title line, the line "Option(s):" and
    one line per option, a blank followed by the option, in order. *)
Theorem execute_verbose_log (_options : SubCmdOptions) (w : world) :
  verbose_log (snd (run _options w))
  = (verbose_log w ++ logged_lines _options)%list.
Proof.
  destruct (execute_outcome_complete process_arguments get_device get_clock_info
              preemption_telemetry_info _options w) as [res [w' [Hrun Hout]]].
  rewrite Hrun. cbn [snd].
  destruct Hout; unfold after_lookup, after_parse;
    cbn [verbose_log put_call put_cout put_cerr];
    apply verbose_log_log_options.
Qed.

End CommandInvariants.

(** ** The further statements on the lab machine *)

Lemma print_preemption_telemetry_empty_witness :
  lab_preemption_telemetry_info (Device 1) = Ok empty_ptree
  /\ ptree_empty (get_child "telemetry" empty_ptree empty_ptree) = true
  /\ print_preemption_telemetry lab_preemption_telemetry_info (Device 1) true initial_world
     = (Ok tt,
        put_cout ("Premption Telemetry Data" ++ nl
                  ++ " No hardware contexts running on device" ++ nl ++ nl)
                 (put_call (call_preemption_telemetry_info (Device 1)) initial_world)).
Proof.
  split; [reflexivity | split; [reflexivity | ]].
  apply (print_preemption_telemetry_empty lab_preemption_telemetry_info (Device 1) true
           empty_ptree initial_world); reflexivity.
Defined.

Lemma print_preemption_telemetry_json_witness :
  lab_preemption_telemetry_info (Device 0) = Ok (report_tree "telemetry" lab_context_records)
  /\ forallb record_ok lab_context_records = true
  /\ (print_preemption_telemetry lab_preemption_telemetry_info (Device 0) true initial_world
      = (Ok tt,
         put_cout
           ("{" ++ nl ++ "    " ++ in_quotes "telemetry" ++ ": [" ++ nl
            ++ String.concat ("," ++ nl)
                 (map (fun fields =>
                         "        {" ++ nl
                         ++ String.concat ("," ++ nl)
                              (map (fun kv => "            " ++ in_quotes (fst kv) ++ ": "
                                              ++ in_quotes (snd kv)) fields)
                         ++ nl ++ "        }")
                      lab_context_records)
            ++ nl ++ "    ]" ++ nl ++ "}" ++ nl)
           (put_call (call_preemption_telemetry_info (Device 0)) initial_world))
      /\ List.length (telemetry_contexts (report_tree "telemetry" lab_context_records))
         = List.length lab_context_records).
Proof.
  split; [reflexivity | split; [reflexivity | ]].
  apply (print_preemption_telemetry_json lab_preemption_telemetry_info (Device 0)
           lab_context_records initial_world); reflexivity.
Defined.

Lemma print_clock_info_missing_field_witness :
  entries_have clock_keys (clock_entries faulty_clocks) = false
  /\ exists key,
      In key clock_keys
      /\ print_clock_info faulty_get_clock_info (Device 0) false initial_world
         = (Throw (std_runtime_error ("No such node (" ++ key ++ ")")),
            put_call (call_get_clock_info (Device 0)) initial_world).
Proof.
  split; [reflexivity | ].
  apply (print_clock_info_missing_field faulty_get_clock_info (Device 0) faulty_clocks
           initial_world); reflexivity.
Defined.

Lemma print_preemption_telemetry_missing_field_witness :
  entries_have telemetry_keys (telemetry_contexts faulty_telemetry) = false
  /\ exists key,
      In key telemetry_keys
      /\ print_preemption_telemetry faulty_preemption_telemetry_info (Device 0) false
           initial_world
         = (Throw (std_runtime_error ("No such node (" ++ key ++ ")")),
            put_call (call_preemption_telemetry_info (Device 0)) initial_world).
Proof.
  split; [reflexivity | ].
  apply (print_preemption_telemetry_missing_field faulty_preemption_telemetry_info
           (Device 0) faulty_telemetry initial_world); reflexivity.
Defined.

Lemma print_clock_info_line_count_witness :
  entries_have clock_keys (clock_entries lab_clocks) = true
  /\ exists text,
      print_clock_info lab_get_clock_info (Device 0) false initial_world
      = (Ok tt, put_cout text (put_call (call_get_clock_info (Device 0)) initial_world))
      /\ count_char "010"%char text = 3.
Proof.
  split; [reflexivity | ].
  apply (print_clock_info_line_count lab_get_clock_info (Device 0) lab_clocks
           initial_world); reflexivity.
Defined.

Lemma execute_parse_failed_witness :
  cli_process_arguments ["--verbose"] = Throw (xrt_core_error_code operation_canceled)
  /\ fst (lab_execute ["--verbose"] initial_world)
     = Throw (xrt_core_error_code operation_canceled)
  /\ calls (snd (lab_execute ["--verbose"] initial_world))
     = [call_process_arguments ["--verbose"]].
Proof.
  split; [reflexivity | ].
  apply (execute_parse_failed cli_process_arguments lab_get_device lab_get_clock_info
           lab_preemption_telemetry_info ["--verbose"]
           (xrt_core_error_code operation_canceled) initial_world); reflexivity.
Defined.

Lemma execute_help_flag_witness :
  existsb (String.eqb "--help") ["--hel"] = false
  /\ guessing_process_arguments ["--hel"] = Ok (parsed EmptyString EmptyString true false)
  /\ execute guessing_process_arguments lab_get_device lab_get_clock_info
             lab_preemption_telemetry_info ["--hel"] initial_world
     = (Ok tt,
        put_call call_printHelp
          (put_call (call_process_arguments ["--hel"]) (log_options ["--hel"] initial_world))).
Proof.
  split; [reflexivity | split; [reflexivity | ]].
  apply (execute_help_flag guessing_process_arguments lab_get_device lab_get_clock_info
           lab_preemption_telemetry_info ["--hel"]
           (parsed EmptyString EmptyString true false) initial_world); reflexivity.
Defined.

Lemma execute_lookup_failed_witness :
  lab_get_device "0000:ff:00.0" true
  = Throw (std_runtime_error "Specified device BDF '0000:ff:00.0' not found")
  /\ lab_execute ["clocks"; "-d"; "0000:FF:00.0"] initial_world
     = (Throw (xrt_core_error_code operation_canceled),
        put_cerr ("ERROR: Specified device BDF '0000:ff:00.0' not found" ++ nl)
          (put_call (call_get_device "0000:ff:00.0" true)
             (put_call (call_process_arguments ["clocks"; "-d"; "0000:FF:00.0"])
                (log_options ["clocks"; "-d"; "0000:FF:00.0"] initial_world)))).
Proof.
  split; [reflexivity | ].
  apply (execute_lookup_failed cli_process_arguments lab_get_device lab_get_clock_info
           lab_preemption_telemetry_info ["clocks"; "-d"; "0000:FF:00.0"]
           (parsed "0000:FF:00.0" "clocks" false false)
           (std_runtime_error "Specified device BDF '0000:ff:00.0' not found")
           initial_world); reflexivity.
Defined.


Lemma execute_clock_entry_defective_witness :
  entries_have clock_keys (clock_entries faulty_clocks) = false
  /\ exists key,
      In key clock_keys
      /\ execute cli_process_arguments lab_get_device faulty_get_clock_info
                 lab_preemption_telemetry_info ["clocks"] initial_world
         = (Throw (std_runtime_error ("No such node (" ++ key ++ ")")),
            put_call (call_get_clock_info (Device 0))
              (after_lookup ["clocks"] (parsed EmptyString "clocks" false false)
                            initial_world)).
Proof.
  split; [reflexivity | ].
  apply (execute_clock_entry_defective cli_process_arguments lab_get_device
           faulty_get_clock_info lab_preemption_telemetry_info ["clocks"]
           (parsed EmptyString "clocks" false false) (Device 0) faulty_clocks
           initial_world); reflexivity.
Defined.

Lemma execute_clock_table_witness :
  cli_process_arguments ["Clocks"] = Ok (parsed EmptyString "Clocks" false false)
  /\ report_named "Clocks" = Some report_clocks
  /\ fst (lab_execute ["Clocks"] initial_world) = Ok tt
  /\ cerr (snd (lab_execute ["Clocks"] initial_world)) = EmptyString.
Proof.
  split; [reflexivity | split; [reflexivity | ]].
  unfold lab_execute.
  rewrite (execute_clock_table cli_process_arguments lab_get_device lab_get_clock_info
             lab_preemption_telemetry_info ["Clocks"]
             (parsed EmptyString "Clocks" false false) (Device 0) lab_clocks initial_world
             eq_refl eq_refl eq_refl eq_refl eq_refl eq_refl eq_refl eq_refl eq_refl).
  split; reflexivity.
Defined.

Lemma execute_success_quiet_witness :
  fst (lab_execute ["preemption"; "--json"] initial_world) = Ok tt
  /\ cerr (snd (lab_execute ["preemption"; "--json"] initial_world)) = cerr initial_world.
Proof.
  split; [reflexivity | ].
  apply (execute_success_quiet cli_process_arguments lab_get_device lab_get_clock_info
           lab_preemption_telemetry_info ["preemption"; "--json"] initial_world);
    reflexivity.
Defined.

Lemma execute_cancellation_diagnosed_witness :
  cli_process_arguments ["bogus"] = Ok (parsed EmptyString "bogus" false false)
  /\ fst (lab_execute ["bogus"] initial_world)
     = Throw (xrt_core_error_code operation_canceled)
  /\ exists diagnostic,
      cerr (snd (lab_execute ["bogus"] initial_world)) = cerr initial_world ++ diagnostic
      /\ contains "ERROR: " diagnostic = true.
Proof.
  split; [reflexivity | split; [reflexivity | ]].
  apply (execute_cancellation_diagnosed cli_process_arguments lab_get_device
           lab_get_clock_info lab_preemption_telemetry_info ["bogus"]
           (parsed EmptyString "bogus" false false)
           (xrt_core_error_code operation_canceled) initial_world); reflexivity.
Defined.

(** ** The order of the calls *)

Ltac pick_shape :=
  solve [ reflexivity
        | split; pick_shape
        | eexists; pick_shape
        | left; pick_shape
        | right; pick_shape ].

Section CommandCallOrder.

Variable process_arguments : SubCmdOptions -> result OO_Reports.
Variable get_device : string -> bool -> result device.
Variable get_clock_info : device -> result ptree.
Variable preemption_telemetry_info : device -> result ptree.

Abbreviation run := (execute process_arguments get_device get_clock_info
                             preemption_telemetry_info).

(** X20. The collaborators are called in a fixed order, each at most once:
    either the usage alone (help asked for), or the parser first, then
    possibly the device lookup, then possibly one fetch, the usage coming
    last if at all.  So no fetch is made without a lookup before it, and
    no lookup without the parser before it. *)
Theorem execute_call_order (_options : SubCmdOptions) (w : world) :
  exists tail,
    calls (snd (run _options w)) = (calls w ++ tail)%list
    /\ (tail = [call_printHelp]
        \/ exists after_parser,
            tail = call_process_arguments _options :: after_parser
            /\ (after_parser = []
                \/ after_parser = [call_printHelp]
                \/ exists id after_device,
                    after_parser = call_get_device id true :: after_device
                    /\ (after_device = []
                        \/ after_device = [call_printHelp]
                        \/ exists c,
                            (after_device = [c] \/ after_device = [c; call_printHelp])
                            /\ is_fetch c = true))).
Proof.
  destruct (execute_outcome_complete process_arguments get_device get_clock_info
              preemption_telemetry_info _options w) as [res [w' [Hrun Hout]]].
  rewrite Hrun. cbn [snd].
  destruct Hout; outcome_calls;
    try match goal with r : report |- _ => destruct r end;
    cbn [app renderer_call]; pick_shape.
Qed.

End CommandCallOrder.
